(** * Order and inventory engine of the Cheos Café backend

    A shallow embedding of [src/controllers/orderController.ts]
    ([createOrder], [updateDeliveryStatus], [cancelOrder] and the helper
    [generateOrderNumber]) over an explicit model of the Prisma store, and
    the properties of the specification that are about them.

    Conventions of the embedding:
    - a JavaScript [number] holding money is a binary64 float
      ([PrimFloat.float]); integer columns ([stock], [quantity],
      [usedCount], [maxUses]) and timestamps are [Z];
    - the amounts of an order and of its items are the numbers that the
      handler computes and hands to [prisma.order.create]: the Prisma
      schema is not among the sources, so what its money columns make of
      a number when they store it (scale, rounding) is not modelled, and
      no statement below is about the decimal value that is stored;
    - the store is a record of finite maps and of the list of orders; an
      order's [id] is its position in that list (orders are never deleted);
    - every [await prisma...] call is a store call that may reject; a
      handler has no [try]/[catch], so a rejection leaves the handler with
      whatever was written before it;
    - [res.status(n).json(..); return] is an early reply;
    - the calls [loggers.order?.created], [loggers.order?.cancelled] and
      [loggers.admin.orderDeliveryUpdated?.(..)] do nothing, [loggers]
      having no such members, and are left out;
    - the columns the controller reads through [Number(..)] ([price],
      [value], [minAmount], [maxDiscount]) are decimal columns: Prisma
      hands them over as [Decimal] objects, truthy whatever their value,
      while [maxUses] and [usedCount] are integers. *)

From Stdlib Require Import ZArith String Ascii.
From Stdlib Require Import Floats.PrimFloat Floats.SpecFloat Floats.FloatOps.
From Stdlib Require Import Strings.String Numbers.DecimalString.
From stdpp Require Import gmap strings list.

Set Warnings "-inexact-float".

Local Open Scope string_scope.
Local Open Scope list_scope.
Local Open Scope Z_scope.
Local Open Scope stdpp_scope.

(** ** JavaScript values *)

Module Js.

(** The JavaScript number that an integer is: the binary64 value of [z]
    itself when binary64 holds [z] exactly (every integer up to 2^53 in
    absolute value, and beyond that the multiples of the power of two in
    reach, such as -2^63), and otherwise the nearest binary64 value, ties
    to even, which is what reading the numeral gives. An integer-valued
    [item.quantity] of a request is the number of exactly one integer. *)
Definition number_of_Z (z : Z) : float :=
  SF2Prim (binary_normalize prec emax z 0 false).

(** Truthiness of an optional string ([undefined], [null] and [''] are
    falsy). *)
Definition truthy_string (s : option string) : bool :=
  match s with
  | Some EmptyString => false
  | Some _ => true
  | None => false
  end.

(** Truthiness of an optional integer ([null] and [0] are falsy). *)
Definition truthy_int (n : option Z) : bool :=
  match n with
  | Some z => negb (z =? 0)
  | None => false
  end.

(** Truthiness of an optional [Decimal] object: any object is truthy,
    only [null] is falsy. *)
Definition truthy_decimal (d : option float) : bool :=
  match d with
  | Some _ => true
  | None => false
  end.

(** [n.toString()] for a non-negative integer. *)
Definition toString (n : N) : string :=
  NilZero.string_of_uint (N.to_uint n).

Fixpoint repeat_char (c : ascii) (n : nat) : string :=
  match n with
  | O => EmptyString
  | S n' => String c (repeat_char c n')
  end.

(** [s.padStart(n, c)] for a one-character pad [c]. *)
Definition padStart (n : nat) (c : ascii) (s : string) : string :=
  String.append (repeat_char c (n - String.length s)%nat) s.

(** [s.slice(-n)]: the last [n] characters of [s]. *)
Definition slice_last (n : nat) (s : string) : string :=
  String.substring (String.length s - n)%nat n s.

(** The readings of a [Date] object that the controller uses. *)
Record Date := mkDate {
  getTime : Z;          (* milliseconds since the epoch; [<=] on dates *)
  getFullYear : N;
  getMonth : N;         (* 0 .. 11 *)
  getDate : N           (* 1 .. 31 *)
}.

End Js.

(** ** Data model *)

Inductive DiscountType := PERCENTAGE | FIXED_AMOUNT.

Inductive DeliveryStatus := PENDING | PROCESSING | SHIPPED | DELIVERED | CANCELLED.

#[global] Instance DeliveryStatus_eq_dec : EqDecision DeliveryStatus.
Proof. solve_decision. Defined.

Record Product := mkProduct {
  name : string;
  price : float;
  active : bool;
  stock : Z
}.

Record DiscountCode := mkDiscountCode {
  dtype : DiscountType;
  value : float;
  minAmount : option float;
  maxDiscount : option float;
  maxUses : option Z;
  usedCount : Z;
  validFrom : Z;
  validUntil : Z;
  dactive : bool
}.

Record OrderItem := mkOrderItem {
  productId : string;
  quantity : Z;
  iprice : float;
  itotal : float
}.

Record Order := mkOrder {
  orderNumber : string;
  userId : string;
  subtotal : float;
  discount : float;
  shipping : float;
  tax : float;
  total : float;
  notes : option string;
  discountCode : option string;
  items : list OrderItem;
  deliveryStatus : DeliveryStatus;
  trackingNumber : option string;
  estimatedDelivery : option Z;
  deliveredAt : option Z
}.

(** The authenticated caller, [req.user]. *)
Record User := mkUser {
  uid : string;
  role : string
}.

(** ** The store and the handler monad *)

Record Store := mkStore {
  products : gmap string Product;
  discountCodes : gmap string DiscountCode;
  orders : list Order
}.

(** What a rejected store call throws. *)
Inductive PrismaError :=
| P2025               (* record to update not found *)
| Unavailable.        (* the connection to the database failed *)

(** [outage = Some n]: the database answers [n] more calls and rejects
    every later one; [None]: it answers all of them. *)
Record World := mkWorld {
  store : Store;
  outage : option nat
}.

Record Response := mkResponse {
  status : Z;
  message : string;
  data : option Order
}.

Inductive Result (A : Type) :=
| Ok (a : A)
| Replied (r : Response)       (* [res.status(..).json(..); return] *)
| Thrown (e : PrismaError)     (* a rejected promise, left to [asyncHandler] *)
| Looping.                     (* the loop has not ended within the fuel *)
Arguments Ok {A} a.
Arguments Replied {A} r.
Arguments Thrown {A} e.
Arguments Looping {A}.

Definition M (A : Type) : Type := World -> Result A * World.

Definition ret {A} (a : A) : M A := fun w => (Ok a, w).

Definition bind {A B} (m : M A) (k : A -> M B) : M B := fun w =>
  match m w with
  | (Ok a, w') => k a w'
  | (Replied r, w') => (Replied r, w')
  | (Thrown e, w') => (Thrown e, w')
  | (Looping, w') => (Looping, w')
  end.

Definition reply {A} (r : Response) : M A := fun w => (Replied r, w).

Notation "'await' x ':=' m 'in' k" := (bind m (fun x => k))
  (at level 10, x name, m at level 100, k at level 200, only parsing).
Notation "'awaiting' m 'in' k" := (bind m (fun _ => k))
  (at level 10, m at level 100, k at level 200, only parsing).

(** [for (const x of l) { await body(x) }] *)
Fixpoint forEach {A} (l : list A) (body : A -> M unit) : M unit :=
  match l with
  | [] => ret tt
  | x :: rest =>
      awaiting body x in
      forEach rest body
  end.

(** One [await prisma...] call: rejected during an outage, otherwise run
    against the store. *)
Definition call {A} (op : Store -> PrismaError + A * Store) : M A := fun w =>
  match outage w with
  | Some O => (Thrown Unavailable, w)
  | budget =>
      match op (store w) with
      | inl e => (Thrown e, mkWorld (store w) (Nat.pred <$> budget))
      | inr (a, s') => (Ok a, mkWorld s' (Nat.pred <$> budget))
      end
  end.

(** [stock: { increment: delta }] on a product row. *)
Definition restock (delta : Z) (p : Product) : Product :=
  mkProduct (name p) (price p) (active p) (stock p + delta).

(** [usedCount: { increment: 1 }] on a discount code row. *)
Definition redeemed (d : DiscountCode) : DiscountCode :=
  mkDiscountCode (dtype d) (value d) (minAmount d) (maxDiscount d) (maxUses d)
    (usedCount d + 1) (validFrom d) (validUntil d) (dactive d).

Module prisma.

Definition product_findUnique (id : string) : M (option Product) :=
  call (fun s => inr (products s !! id, s)).

(** [product.update({ data: { stock: { increment: delta } } })]. *)
Definition product_update_stock (id : string) (delta : Z) : M unit :=
  call (fun s =>
    match products s !! id with
    | None => inl P2025
    | Some p =>
        inr (tt, mkStore (<[id := restock delta p]> (products s))
                   (discountCodes s) (orders s))
    end).

Definition discountCode_findUnique (code : string) : M (option DiscountCode) :=
  call (fun s => inr (discountCodes s !! code, s)).

(** [discountCode.update({ data: { usedCount: { increment: 1 } } })]. *)
Definition discountCode_update_used (code : string) : M unit :=
  call (fun s =>
    match discountCodes s !! code with
    | None => inl P2025
    | Some d =>
        inr (tt, mkStore (products s) (<[code := redeemed d]> (discountCodes s))
                   (orders s))
    end).

(** [order.findUnique({ where: { orderNumber } })]. *)
Definition order_findUnique_orderNumber (n : string) : M (option Order) :=
  call (fun s => inr (List.find (fun o => String.eqb (orderNumber o) n) (orders s), s)).

(** [order.findUnique({ where })] with [where = { id }] or
    [{ id, userId }]. *)
Definition order_findUnique (id : nat) (owner : option string) : M (option Order) :=
  call (fun s =>
    inr (match orders s !! id with
         | Some o =>
             match owner with
             | Some u => if String.eqb (userId o) u then Some o else None
             | None => Some o
             end
         | None => None
         end, s)).

(** [order.create({ data })]: the new order gets the next [id]. The row
    is kept as the [data] that the handler hands over; the conversion of
    its amounts to the money columns of the schema is not modelled. *)
Definition order_create (o : Order) : M Order :=
  call (fun s => inr (o, mkStore (products s) (discountCodes s) (orders s ++ [o]))).

(** [order.update({ where: { id }, data })], [data] given as the change
    it makes to the record. *)
Definition order_update (id : nat) (change : Order -> Order) : M Order :=
  call (fun s =>
    match orders s !! id with
    | None => inl P2025
    | Some o =>
        inr (change o,
             mkStore (products s) (discountCodes s) (<[id := change o]> (orders s)))
    end).

End prisma.

(** [globalErrorHandler], on what [asyncHandler] catches. *)
Definition globalErrorHandler (e : PrismaError) : Response :=
  match e with
  | P2025 => mkResponse 404 "Operación falló" None
  | Unavailable => mkResponse 500 "Error interno del servidor" None
  end.

(** The response a client sees, if the handler has ended. *)
Definition asyncHandler (r : Result Response) : option Response :=
  match r with
  | Ok r => Some r
  | Replied r => Some r
  | Thrown e => Some (globalErrorHandler e)
  | Looping => None
  end.

(** ** The request environment *)

(** [now]: the clock reading [new Date()] of the handler itself ([const
    now] of the discount block of [createOrder], [deliveredAt] of
    [updateDeliveryStatus]);
    [random k]: the value of [Math.floor(Math.random() * 10000)] at the
    [k]-th draw of the request;
    [today k]: the clock reading [new Date()] of the [k]-th iteration of
    the loop of [generateOrderNumber], which reads the clock anew each
    time round. *)
Record Env := mkRequest {
  now : Js.Date;
  random : nat -> N;
  today : nat -> Js.Date
}.

(** The environment of a request during which every reading of the clock
    gives [d]. *)
Definition mkEnv (d : Js.Date) (r : nat -> N) : Env := mkRequest d r (fun _ => d).

(** ** createOrder *)

(** Modelled from the spec: the Prisma schema, which gives a new order its
    delivery status, is not among the sources; by section 3 of the
    specification an order is created with delivery status [PENDING]. *)
Definition defaultDeliveryStatus : DeliveryStatus := PENDING.

(** An item of the request. [item_quantity] is the integer that the
    number [item.quantity] is; [Js.number_of_Z] gives the number back. *)
Record OrderItemCreate := mkItem {
  item_productId : string;
  item_quantity : Z
}.

Record OrderCreate := mkBody {
  body_items : list OrderItemCreate;
  body_notes : option string;
  body_discountCode : option string
}.

Definition created (o : Order) : Response :=
  mkResponse 201 "Orden creada exitosamente" (Some o).
Definition productNotFound : Response := mkResponse 404 "Producto no encontrado" None.
Definition productUnavailable : Response := mkResponse 400 "Producto no disponible" None.
Definition insufficientStock : Response := mkResponse 400 "Stock insuficiente" None.

(** The body of the first [for (const item of items)] loop, on the
    running [subtotal] and [orderItems]. *)
Definition validateItem (item : OrderItemCreate) (acc : float * list OrderItem)
  : M (float * list OrderItem) :=
  await product := prisma.product_findUnique (item_productId item) in
  match product with
  | None => reply productNotFound
  | Some product =>
      if negb (active product) then reply productUnavailable
      else if stock product <? item_quantity item then reply insufficientStock
      else
        let itemTotal := (price product * Js.number_of_Z (item_quantity item))%float in
        ret ((fst acc + itemTotal)%float,
             snd acc ++ [mkOrderItem (item_productId item) (item_quantity item)
                           (price product) itemTotal])
  end.

Fixpoint validateItems (items : list OrderItemCreate) (acc : float * list OrderItem)
  : M (float * list OrderItem) :=
  match items with
  | [] => ret acc
  | item :: rest =>
      await acc' := validateItem item acc in
      validateItems rest acc'
  end.

(** [!d.maxUses || d.usedCount < d.maxUses] *)
Definition underUsageCap (d : DiscountCode) : bool :=
  negb (Js.truthy_int (maxUses d)) ||
  match maxUses d with
  | Some m => usedCount d <? m
  | None => false
  end.

(** [!d.minAmount || subtotal >= Number(d.minAmount)] *)
Definition meetsMinAmount (d : DiscountCode) (subtotal : float) : bool :=
  negb (Js.truthy_decimal (minAmount d)) ||
  match minAmount d with
  | Some m => (m <=? subtotal)%float
  | None => false
  end.

(** The two innermost statements of the discount block. *)
Definition discountAmount (d : DiscountCode) (subtotal : float) : float :=
  let discount :=
    match dtype d with
    | PERCENTAGE => (subtotal * (value d / 100))%float
    | FIXED_AMOUNT => value d
    end in
  match maxDiscount d with
  | Some cap => if (cap <? discount)%float then cap else discount
  | None => discount
  end.

(** The nest of [if]s around them; [discount] stays [0] when one fails. *)
Definition discountOf (t : Z) (subtotal : float) (found : option DiscountCode) : float :=
  match found with
  | Some d =>
      if dactive d then
        if (validFrom d <=? t) && (t <=? validUntil d) then
          if underUsageCap d then
            if meetsMinAmount d subtotal then discountAmount d subtotal
            else 0%float
          else 0%float
        else 0%float
      else 0%float
  | None => 0%float
  end.

Definition computeDiscount (env : Env) (code : option string) (subtotal : float) : M float :=
  match code with
  | Some c =>
      if Js.truthy_string code then
        await discountCodeObj := prisma.discountCode_findUnique c in
        ret (discountOf (Js.getTime (now env)) subtotal discountCodeObj)
      else ret 0%float
  | None => ret 0%float
  end.

Definition dateStr (d : Js.Date) : string :=
  String.append (Js.slice_last 2 (Js.toString (Js.getFullYear d)))
    (String.append (Js.padStart 2 "0" (Js.toString (Js.getMonth d + 1)))
       (Js.padStart 2 "0" (Js.toString (Js.getDate d)))).

Definition orderNumberOf (env : Env) (k : nat) : string :=
  String.append "CHE"
    (String.append (dateStr (today env k))
       (Js.padStart 4 "0" (Js.toString (random env k)))).

(** [generateOrderNumber]: the [while (exists)] loop, from its [k]-th
    draw on, run for at most [fuel] iterations; each iteration reads the
    clock and draws anew. *)
Fixpoint generateOrderNumber (env : Env) (fuel : nat) (k : nat) : M string :=
  match fuel with
  | O => fun w => (Looping, w)
  | S fuel' =>
      let orderNumber := orderNumberOf env k in
      await existingOrder := prisma.order_findUnique_orderNumber orderNumber in
      match existingOrder with
      | Some _ => generateOrderNumber env fuel' (S k)
      | None => ret orderNumber
      end
  end.

(** The second [for (const item of items)] loop. *)
Definition decrementStock (items : list OrderItemCreate) : M unit :=
  forEach items (fun item =>
    prisma.product_update_stock (item_productId item) (- item_quantity item)).

(** [if (discountCode && discount > 0)] and the update under it. *)
Definition countDiscountUse (code : option string) (discount : float) : M unit :=
  match code with
  | Some c =>
      if Js.truthy_string code && (0 <? discount)%float
      then prisma.discountCode_update_used c
      else ret tt
  | None => ret tt
  end.

Definition taxOf (subtotal discount : float) : float :=
  ((subtotal - discount) * 0.19)%float.

Definition totalOf (subtotal discount shipping tax : float) : float :=
  (subtotal - discount + shipping + tax)%float.

Definition createOrder (env : Env) (fuel : nat) (user : User) (body : OrderCreate)
  : M Response :=
  await validated := validateItems (body_items body) (0%float, []) in
  let subtotal := fst validated in
  let orderItems := snd validated in
  await discount := computeDiscount env (body_discountCode body) subtotal in
  let shipping := 5000%float in
  let tax := taxOf subtotal discount in
  let total := totalOf subtotal discount shipping tax in
  await orderNumber := generateOrderNumber env fuel 0 in
  await order :=
    prisma.order_create
      (mkOrder orderNumber (uid user) subtotal discount shipping tax total
         (body_notes body) (body_discountCode body) orderItems
         defaultDeliveryStatus None None None) in
  awaiting decrementStock (body_items body) in
  awaiting countDiscountUse (body_discountCode body) discount in
  ret (created order).

(** ** updateDeliveryStatus *)

Definition orderNotFound : Response := mkResponse 404 "Orden no encontrada" None.
Definition deliveryUpdated : string := "Estado de entrega actualizado exitosamente".

Definition deliveryUpdate (env : Env) (requested : DeliveryStatus)
    (tracking : option string) (estimated : option Z) (o : Order) : Order :=
  mkOrder (orderNumber o) (userId o) (subtotal o) (discount o) (shipping o) (tax o)
    (total o) (notes o) (discountCode o) (items o)
    requested
    (if Js.truthy_string tracking then tracking else trackingNumber o)
    (match estimated with Some _ => estimated | None => estimatedDelivery o end)
    (if decide (requested = DELIVERED) then Some (Js.getTime (now env))
     else deliveredAt o).

Definition updateDeliveryStatus (env : Env) (id : nat) (requested : DeliveryStatus)
    (tracking : option string) (estimated : option Z) : M Response :=
  await order := prisma.order_findUnique id None in
  match order with
  | None => reply orderNotFound
  | Some _ =>
      await updatedOrder :=
        prisma.order_update id (deliveryUpdate env requested tracking estimated) in
      ret (mkResponse 200 deliveryUpdated (Some updatedOrder))
  end.

(** ** cancelOrder *)

Definition cannotCancel : Response := mkResponse 400 "No se puede cancelar la orden" None.
Definition cancelled : string := "Orden cancelada exitosamente".

(** [reason ? `${order.notes || ''}\nCancelada: ${reason}` : order.notes] *)
Definition cancelNotes (read : Order) (reason : option string) : option string :=
  match reason with
  | Some r =>
      if Js.truthy_string reason then
        Some (String.append
                (if Js.truthy_string (notes read) then default "" (notes read) else "")
                (String.append (String "010" "Cancelada: ") r))
      else notes read
  | None => notes read
  end.

Definition cancelUpdate (read : Order) (reason : option string) (o : Order) : Order :=
  mkOrder (orderNumber o) (userId o) (subtotal o) (discount o) (shipping o) (tax o)
    (total o) (cancelNotes read reason) (discountCode o) (items o)
    CANCELLED (trackingNumber o) (estimatedDelivery o) (deliveredAt o).

(** The [for (const item of order.items)] loop. *)
Definition restoreStock (its : list OrderItem) : M unit :=
  forEach its (fun item =>
    prisma.product_update_stock (productId item) (quantity item)).

Definition cancelOrder (user : User) (id : nat) (reason : option string) : M Response :=
  let owner := if negb (String.eqb (role user) "ADMIN") then Some (uid user) else None in
  await order := prisma.order_findUnique id owner in
  match order with
  | None => reply orderNotFound
  | Some order =>
      if bool_decide (deliveryStatus order = DELIVERED)
         || bool_decide (deliveryStatus order = CANCELLED)
      then reply cannotCancel
      else
        await updatedOrder := prisma.order_update id (cancelUpdate order reason) in
        awaiting restoreStock (items order) in
        ret (mkResponse 200 cancelled (Some updatedOrder))
  end.

(** ** getOrders and getOrderById *)

(** [req.query] of [getOrders], after [validators.pagination] (the route
    runs it first): [page] is an integer from 1 on and [limit] one from 1
    to 100, each already replaced by its default (1 and 10) when absent.
    [query_rest] stands for the filters on columns that the order record
    of this model does not carry ([paymentStatus], [paymentMethod],
    [createdAt]), as the test on a row they amount to, and [query_orderBy]
    for [orderBy[sortBy] = sortOrder], as the rearrangement of the rows it
    amounts to. *)
Record OrderQuery := mkQuery {
  query_page : positive;
  query_limit : positive;
  query_userId : option string;
  query_deliveryStatus : option DeliveryStatus;
  query_rest : Order -> bool;
  query_orderBy : list Order -> list Order
}.

(** The [userId] that the [where] clause of [getOrders] ends with. *)
Definition whereUserId (user : User) (q : OrderQuery) : option string :=
  if negb (String.eqb (role user) "ADMIN") then Some (uid user)
  else if Js.truthy_string (query_userId q) then query_userId q
  else None.

(** The [where] clause of [getOrders], as a test on a row. *)
Definition ordersWhere (user : User) (q : OrderQuery) (o : Order) : bool :=
  match whereUserId user q with
  | Some u => String.eqb (userId o) u
  | None => true
  end
  && match query_deliveryStatus q with
     | Some d => bool_decide (deliveryStatus o = d)
     | None => true
     end
  && query_rest q o.

(** [order.findMany({ where, skip, take, orderBy })] *)
Definition order_findMany (where_ : Order -> bool) (orderBy : list Order -> list Order)
    (skip take_ : nat) : M (list Order) :=
  call (fun s => inr (take take_ (drop skip (orderBy (List.filter where_ (orders s)))), s)).

(** [order.count({ where })] *)
Definition order_count (where_ : Order -> bool) : M nat :=
  call (fun s => inr (length (List.filter where_ (orders s)), s)).

(** [Math.ceil(total / limit)] on two counts. *)
Definition pagesOf (total limit : nat) : nat := ((total + limit - 1) / limit)%nat.

Record Pagination := mkPagination {
  pg_page : nat;
  pg_limit : nat;
  pg_total : nat;
  pg_pages : nat
}.

Record OrdersResponse := mkOrdersResponse {
  list_status : Z;
  list_orders : list Order;
  list_pagination : Pagination
}.

Definition getOrders (user : User) (q : OrderQuery) : M OrdersResponse :=
  let skip := ((Pos.to_nat (query_page q) - 1) * Pos.to_nat (query_limit q))%nat in
  let take_ := Pos.to_nat (query_limit q) in
  let where_ := ordersWhere user q in
  await orders := order_findMany where_ (query_orderBy q) skip take_ in
  await total := order_count where_ in
  ret (mkOrdersResponse 200 orders
         (mkPagination (Pos.to_nat (query_page q)) (Pos.to_nat (query_limit q)) total
            (pagesOf total (Pos.to_nat (query_limit q))))).

Definition orderObtained : string := "Orden obtenida exitosamente".

Definition getOrderById (user : User) (id : nat) : M Response :=
  let owner := if negb (String.eqb (role user) "ADMIN") then Some (uid user) else None in
  await order := prisma.order_findUnique id owner in
  match order with
  | None => reply orderNotFound
  | Some order => ret (mkResponse 200 orderObtained (Some order))
  end.

(** ** requireAdmin and the administration routes *)

Definition adminRequired : Response :=
  mkResponse 403 "Permisos de administrador requeridos" None.
Definition authenticationRequired : Response :=
  mkResponse 401 "Autenticación requerida" None.

(** [requireAdmin]: [None] is [next()], [Some r] the response sent instead,
    by the middleware itself (403) or, for the [UnauthorizedError] it
    passes on, by [globalErrorHandler] (401). *)
Definition requireAdmin (user : option User) : option Response :=
  match user with
  | None => Some authenticationRequired
  | Some u =>
      if negb (String.eqb (role u) "admin") then Some adminRequired else None
  end.

(** [router.patch('/:id/delivery-status', authenticateToken, requireAdmin,
    .., updateDeliveryStatus)], for a caller whom [authenticateToken] has
    let through as [user]. *)
Definition patchDeliveryStatus (env : Env) (user : User) (id : nat)
    (requested : DeliveryStatus) (tracking : option string) (estimated : option Z)
  : M Response :=
  match requireAdmin (Some user) with
  | Some r => reply r
  | None => updateDeliveryStatus env id requested tracking estimated
  end.

(** * Vocabulary of the statements *)

(** [post m w Q]: run from the world [w], the computation [m] ends in a
    result and a world that satisfy [Q]. *)
Definition post {A} (m : M A) (w : World) (Q : Result A -> World -> Prop) : Prop :=
  Q (fst (m w)) (snd (m w)).

(** A database that answers every call keeps doing so. *)
Definition stays_up (w w' : World) : Prop := outage w = None -> outage w' = None.

(** The only rejection an outage-free database is not responsible for. *)
Definition from_outage (w : World) (e : PrismaError) : Prop :=
  e = Unavailable /\ outage w <> None.

Definition known (s : Store) (id : string) : Prop := is_Some (products s !! id).

Definition validation_reply (x : Response) : Prop :=
  x = productNotFound \/ x = productUnavailable \/ x = insufficientStock.

(** The value of [discount] after the block, on the codes of the store. *)
Definition discountValue (env : Env) (code : option string) (subtotal : float)
    (codes : gmap string DiscountCode) : float :=
  match code with
  | Some c =>
      if Js.truthy_string code
      then discountOf (Js.getTime (now env)) subtotal (codes !! c)
      else 0%float
  | None => 0%float
  end.

Definition orderNumbers (s : Store) : list string := orderNumber <$> orders s.

(** The net change that a loop of [stock: { increment: delta x }] updates,
    one per element of [l], makes to the stock of product [p]. *)
Fixpoint moved {A} (key : A -> string) (delta : A -> Z) (p : string) (l : list A) : Z :=
  match l with
  | [] => 0
  | x :: rest =>
      (if decide (key x = p) then delta x else 0) + moved key delta p rest
  end.

Definition stockOf (s : Store) (p : string) : option Z := stock <$> products s !! p.

(** What [countDiscountUse] leaves in the table of codes. *)
Definition countedUse (code : option string) (discount : float)
    (codes : gmap string DiscountCode) : gmap string DiscountCode :=
  match code with
  | Some c =>
      if Js.truthy_string code && (0 <? discount)%float
      then match codes !! c with
           | Some d => <[c := redeemed d]> codes
           | None => codes
           end
      else codes
  | None => codes
  end.

(** A world reached from [w] by calls that only read. *)
Definition same_db (w w' : World) : Prop := store w' = store w /\ stays_up w w'.

(** What [createOrder] hands to [prisma.order.create], seen from the
    store [s] it ran against. *)
Record placed (env : Env) (user : User) (body : OrderCreate) (s : Store) (o : Order)
  : Prop := mkPlaced {
  placed_fresh : orderNumber o ∉ orderNumbers s;
  placed_number : exists j, orderNumber o = orderNumberOf env j;
  placed_user : userId o = uid user;
  placed_discount :
    discount o = discountValue env (body_discountCode body) (subtotal o) (discountCodes s);
  placed_shipping : shipping o = 5000%float;
  placed_tax : tax o = taxOf (subtotal o) (discount o);
  placed_total : total o = totalOf (subtotal o) (discount o) (shipping o) (tax o);
  placed_code : discountCode o = body_discountCode body;
  placed_status : deliveryStatus o = defaultDeliveryStatus;
  placed_known : Forall (fun item => known s (item_productId item)) (body_items body)
}.

Definition decrements (body : OrderCreate) (p : string) : Z :=
  moved item_productId (fun item => - item_quantity item) p (body_items body).

(** The quantity that the items of an order hold of product [p]. *)
Definition reserved (p : string) (its : list OrderItem) : Z :=
  moved productId quantity p its.

(** ** Stores and requests of the examples *)

Definition cafe : Product := mkProduct "Cafe Huila" 35000%float true 5.

Definition order_of (buyer : string) (st : DeliveryStatus) (its : list OrderItem) : Order :=
  mkOrder "CHE2611020001" buyer 0%float 0%float 5000%float 0%float 5000%float
    None None its st None None None.

Definition shop (st : DeliveryStatus) : Store :=
  mkStore {[ "p1" := cafe ]} ∅ [order_of "ana" st [mkOrderItem "p1" 2 35000%float 70000%float]].

Definition ana : User := mkUser "ana" "customer".

(** 2 November 2026, at time 1000; every draw gives 7. *)
Definition env0 : Env := mkEnv (Js.mkDate 1000 2026 10 2) (fun _ => 7%N).

Definition te : Product := mkProduct "Te" 12000%float true 5.

(** 10% off from 20000 on, valid from time 0 to time 2000, never used,
    with a usage cap of [cap]. *)
Definition promo (cap : Z) : DiscountCode :=
  mkDiscountCode PERCENTAGE 10%float (Some 20000%float) None (Some cap) 0 0 2000 true.

Definition promo_shop (cap : Z) : Store :=
  mkStore {[ "p1" := cafe ]} {[ "SAVE10" := promo cap ]} [].

Definition promo_body : OrderCreate := mkBody [mkItem "p1" 1] None (Some "SAVE10").

(** A code that takes 5000 off, whatever the subtotal: no minimum, no
    cap, valid from time 0 to time 2000, never used. *)
Definition voucher : DiscountCode :=
  mkDiscountCode FIXED_AMOUNT 5000%float None None None 0 0 2000 true.

(** ** The discount rules as the specification words them *)

(** The rules of the discount validator in the words of the
    specification (section 4.2), for comparison with [discountOf]. *)
Module Spec.

(** percentage kind: [subtotal * value/100]; fixed-amount kind: [value] *)
Definition rawDiscount (d : DiscountCode) (subtotal : float) : float :=
  match dtype d with
  | PERCENTAGE => (subtotal * (value d / 100))%float
  | FIXED_AMOUNT => value d
  end.

(** "if a maxDiscount cap is configured and the raw discount exceeds it,
    clamp to the cap" *)
Definition clamp (cap : option float) (raw : float) : float :=
  match cap with
  | Some c => if (c <? raw)%float then c else raw
  | None => raw
  end.

(** "a usage cap exists and usedCount >= maxUses" *)
Definition usageCapReached (d : DiscountCode) : Prop :=
  exists m, maxUses d = Some m /\ m <= usedCount d.

(** The code is active, the time is in the validity window, the usage
    cap is not reached (a cap of 0 counting as no cap), the subtotal is
    not below the minimum amount. *)
Definition redeemable (t : Z) (subtotal : float) (d : DiscountCode) : Prop :=
  dactive d = true /\
  validFrom d <= t <= validUntil d /\
  (forall m, maxUses d = Some m -> m <> 0 -> usedCount d < m) /\
  (forall m, minAmount d = Some m -> (m <=? subtotal)%float = true).

(** One of the reasons to turn the code down holds. *)
Definition rejected (t : Z) (subtotal : float) (d : DiscountCode) : Prop :=
  dactive d = false \/
  t < validFrom d \/ validUntil d < t \/
  (exists m, maxUses d = Some m /\ m <> 0 /\ m <= usedCount d) \/
  (exists m, minAmount d = Some m /\ (m <=? subtotal)%float = false).

End Spec.

(** ** Vocabulary of the further properties *)

(** The request item passes the three checks of the first loop of
    [createOrder] against the store [s]. *)
Definition passes (s : Store) (item : OrderItemCreate) : Prop :=
  exists p, products s !! item_productId item = Some p /\
            active p = true /\ item_quantity item <= stock p.

(** [l] is the order line that the first loop of [createOrder] makes of
    the request item, against the store [s]. *)
Definition lineFor (s : Store) (item : OrderItemCreate) (l : OrderItem) : Prop :=
  productId l = item_productId item /\
  quantity l = item_quantity item /\
  exists p, products s !! item_productId item = Some p /\
            active p = true /\ item_quantity item <= stock p /\
            iprice l = price p /\
            itotal l = (price p * Js.number_of_Z (item_quantity item))%float.

(** [subtotal += itemTotal], line after line. *)
Definition sumLines (start : float) (lines : list OrderItem) : float :=
  foldl (fun acc l => (acc + itotal l)%float) start lines.

(** What a stock update leaves alone in a product row. *)
Definition listing (p : Product) : string * float * bool := (name p, price p, active p).

Definition catalogue (s : Store) : gmap string (string * float * bool) :=
  listing <$> products s.

(** The rows that [getOrders] pages through: those the [where] clause
    keeps, in the order asked for. *)
Definition selected (user : User) (q : OrderQuery) (s : Store) : list Order :=
  query_orderBy q (List.filter (ordersWhere user q) (orders s)).

Definition withPage (q : OrderQuery) (k : positive) : OrderQuery :=
  mkQuery k (query_limit q) (query_userId q) (query_deliveryStatus q)
    (query_rest q) (query_orderBy q).

(** The orders on page [k] of the listing, if the handler answers. *)
Definition pageOrders (user : User) (q : OrderQuery) (w : World) (k : positive)
  : list Order :=
  match fst (getOrders user (withPage q k) w) with
  | Ok r => list_orders r
  | _ => []
  end.

(** [keeps obs m]: whatever the world and however [m] ends, the store has
    the same [obs] after [m] as before. *)
Definition keeps {X A} (obs : Store -> X) (m : M A) : Prop :=
  forall w, obs (store (snd (m w))) = obs (store w).

(** A store operation that, when it succeeds, leaves [obs] as it was. *)
Definition op_keeps {X A} (obs : Store -> X) (op : Store -> PrismaError + A * Store)
  : Prop :=
  forall s a s', op s = inr (a, s') -> obs s' = obs s.

(** What [getOrders] has answered, if it has. *)
Definition asyncListing (r : Result OrdersResponse) : option OrdersResponse :=
  match r with
  | Ok r => Some r
  | _ => None
  end.

(** A query without the filters that this model does not look into, and
    rows sorted by creation, oldest first. *)
Definition everyone (o : Order) : bool := true.

Definition byCreation (l : list Order) : list Order := l.

Definition three_orders : Store :=
  mkStore ∅ ∅ [order_of "ana" PENDING []; order_of "luis" SHIPPED [];
               order_of "ana" DELIVERED []].

(** A caller with the role that the order controller takes for an
    administrator. *)
Definition luis_admin : User := mkUser "luis" "ADMIN".

(** ** Order numbers of one day *)

(** A reading of the clock with a four-digit year, a month from 0 to 11
    and a day of the month from 1 to 31. *)
Definition calendar (d : Js.Date) : Prop :=
  (1000 <= Js.getFullYear d < 10000)%N /\
  (Js.getMonth d < 12)%N /\
  (1 <= Js.getDate d <= 31)%N.

(** The order number that [generateOrderNumber] builds on the date [d]
    from the draw [r]. *)
Definition numberOn (d : Js.Date) (r : N) : string :=
  String.append "CHE" (String.append (dateStr d) (Js.padStart 4 "0" (Js.toString r))).

(** The values of [Math.floor(Math.random() * 10000)]. *)
Definition draws : list N := N.of_nat <$> seq 0 (N.to_nat 10000).

(** The number that a decimal numeral denotes (leading zeros allowed). *)
Definition readNumeral (s : string) : option N :=
  N.of_uint <$> NilZero.uint_of_string s.

(** An order that carries the number [n]. *)
Definition numbered (n : string) : Order :=
  mkOrder n "ana" 0%float 0%float 5000%float 0%float 5000%float
    None None [] PENDING None None None.

(** A store in which every order number of the date [d] is taken. *)
Definition full_day (d : Js.Date) : Store :=
  mkStore ∅ ∅ ((fun r => numbered (numberOn d r)) <$> draws).

(** A store with one order of "ana" that holds two units of "p1" and one
    of "p2". *)
Definition two_lines : Store :=
  mkStore {[ "p1" := cafe; "p2" := te ]} ∅
    [order_of "ana" PENDING [mkOrderItem "p1" 2 35000%float 70000%float;
                             mkOrderItem "p2" 1 12000%float 12000%float]].

(** * Reasoning about handlers *)

Section PostRules.
Context {A B : Type}.

Lemma post_ret (a : A) w Q : Q (Ok a) w -> post (ret a) w Q.
Proof. exact id. Qed.

Lemma post_reply (r : Response) w (Q : Result A -> World -> Prop) :
  Q (Replied r) w -> post (reply r) w Q.
Proof. exact id. Qed.

Lemma post_bind (m : M A) (k : A -> M B) w Q :
  post m w (fun r w' =>
    match r with
    | Ok a => post (k a) w' Q
    | Replied x => Q (Replied x) w'
    | Thrown e => Q (Thrown e) w'
    | Looping => Q Looping w'
    end) ->
  post (bind m k) w Q.
Proof.
  unfold post, bind. destruct (m w) as [[a|x|e|] w']; cbn [fst snd]; auto.
Qed.

Lemma post_mono (m : M A) w (P Q : Result A -> World -> Prop) :
  post m w P -> (forall r w', P r w' -> Q r w') -> post m w Q.
Proof. unfold post. auto. Qed.

Lemma post_call (op : Store -> PrismaError + A * Store) w Q :
  (outage w = Some O -> Q (Thrown Unavailable) w) ->
  (outage w <> Some O ->
   match op (store w) with
   | inl e => Q (Thrown e) (mkWorld (store w) (Nat.pred <$> outage w))
   | inr (a, s') => Q (Ok a) (mkWorld s' (Nat.pred <$> outage w))
   end) ->
  post (call op) w Q.
Proof.
  unfold post, call. intros H0 H1.
  destruct (outage w) as [[|n]|] eqn:E.
  - auto.
  - specialize (H1 ltac:(discriminate)).
    destruct (op (store w)) as [e|[a s']]; exact H1.
  - specialize (H1 ltac:(discriminate)).
    destruct (op (store w)) as [e|[a s']]; exact H1.
Qed.

End PostRules.

Lemma stays_up_pred w s : stays_up w (mkWorld s (Nat.pred <$> outage w)).
Proof. unfold stays_up. cbn. intros ->. reflexivity. Qed.

Lemma stays_up_refl w : stays_up w w.
Proof. exact id. Qed.

Lemma stays_up_trans w1 w2 w3 : stays_up w1 w2 -> stays_up w2 w3 -> stays_up w1 w3.
Proof. unfold stays_up. auto. Qed.

Lemma from_outage_now w : outage w = Some O -> from_outage w Unavailable.
Proof. intros H. split; [reflexivity | congruence]. Qed.

Lemma from_outage_later w s e :
  from_outage (mkWorld s (Nat.pred <$> outage w)) e -> from_outage w e.
Proof. intros [-> H]. split; [reflexivity|]. intros E. apply H. cbn. now rewrite E. Qed.

(** ** The item validation loop writes nothing *)

Lemma validateItem_post item acc w :
  post (validateItem item acc) w (fun r w' =>
    store w' = store w /\ stays_up w w' /\
    match r with
    | Ok _ => known (store w) (item_productId item)
    | Replied x => validation_reply x
    | Thrown e => from_outage w e
    | Looping => False
    end).
Proof.
  unfold validateItem. apply post_bind. apply post_call.
  - intros H. split; [|split]; auto using stays_up_refl, from_outage_now.
  - intros _. cbn [fst snd store].
    destruct (products (store w) !! item_productId item) as [p|] eqn:E.
    + destruct (negb (active p)); [|destruct (stock p <? item_quantity item)];
        unfold post, reply, ret; cbn [fst snd store];
        (split; [|split]); auto using stays_up_pred;
        unfold validation_reply, known; eauto.
    + unfold post, reply; cbn [fst snd store].
      split; [|split]; auto using stays_up_pred. unfold validation_reply; auto.
Qed.

Lemma validateItems_post items : forall acc w,
  post (validateItems items acc) w (fun r w' =>
    store w' = store w /\ stays_up w w' /\
    match r with
    | Ok _ => Forall (fun item => known (store w) (item_productId item)) items
    | Replied x => validation_reply x
    | Thrown e => from_outage w e
    | Looping => False
    end).
Proof.
  induction items as [|item rest IH]; intros acc w; cbn [validateItems].
  - apply post_ret. split; [|split]; auto using stays_up_refl.
  - apply post_bind.
    eapply post_mono; [apply validateItem_post|].
    intros [acc'| | |] w1 (Hs & Hup & Hr); try (split; [|split]; assumption).
    eapply post_mono; [apply IH|].
    intros r w2 (Hs2 & Hup2 & Hr2).
    split; [congruence|]. split; [eauto using stays_up_trans|].
    destruct r; auto.
    + constructor; [assumption|]. now rewrite <- Hs.
    + destruct Hr2 as [-> Hr2]. split; [reflexivity|].
      intros E. apply Hr2. auto.
Qed.

(** ** The discount block only reads *)

Lemma computeDiscount_post env code subtotal w :
  post (computeDiscount env code subtotal) w (fun r w' =>
    store w' = store w /\ stays_up w w' /\
    match r with
    | Ok d => d = discountValue env code subtotal (discountCodes (store w))
    | Replied _ => False
    | Thrown e => from_outage w e
    | Looping => False
    end).
Proof.
  unfold computeDiscount, discountValue.
  destruct code as [c|]; [destruct (Js.truthy_string (Some c))|].
  - apply post_bind, post_call.
    + intros H. split; [|split]; auto using stays_up_refl, from_outage_now.
    + intros _. apply post_ret. cbn [store].
      split; [|split]; auto using stays_up_pred.
  - apply post_ret. split; [|split]; auto using stays_up_refl.
  - apply post_ret. split; [|split]; auto using stays_up_refl.
Qed.

(** ** The order number generator *)

Lemma find_orderNumber_None n (l : list Order) :
  List.find (fun o => String.eqb (orderNumber o) n) l = None <->
  n ∉ orderNumber <$> l.
Proof.
  induction l as [|o l IH]; cbn.
  - split; [intros _; apply not_elem_of_nil | reflexivity].
  - rewrite not_elem_of_cons.
    destruct (String.eqb_spec (orderNumber o) n) as [E|E].
    + split; [discriminate | intros [H _]; congruence].
    + rewrite IH. split; [intros H; split; [congruence | exact H] | intros [_ H]; exact H].
Qed.

Lemma generateOrderNumber_post env fuel : forall k w,
  post (generateOrderNumber env fuel k) w (fun r w' =>
    store w' = store w /\ stays_up w w' /\
    match r with
    | Ok n =>
        (n ∉ orderNumbers (store w)) /\
        exists j, (k <= j < k + fuel)%nat /\ n = orderNumberOf env j
    | Replied _ => False
    | Thrown e => from_outage w e
    | Looping => True
    end).
Proof.
  induction fuel as [|fuel IH]; intros k w; cbn [generateOrderNumber].
  - unfold post; cbn. split; [|split]; auto using stays_up_refl.
  - apply post_bind, post_call.
    + intros H. split; [|split]; auto using stays_up_refl, from_outage_now.
    + intros _.
      destruct (List.find _ (orders (store w))) as [o|] eqn:E.
      * eapply post_mono; [apply IH|]. cbn [store].
        intros r w' (Hs & Hup & Hr).
        split; [exact Hs|]. split; [eauto using stays_up_trans, stays_up_pred|].
        destruct r as [n| | |]; auto.
        -- destruct Hr as [Hn (j & Hj & ->)]. split; [exact Hn|].
           exists j. split; [lia | reflexivity].
        -- eauto using from_outage_later.
      * apply post_ret. cbn [store].
        split; [reflexivity|]. split; [apply stays_up_pred|].
        split; [now apply find_orderNumber_None|].
        exists k. split; [lia | reflexivity].
Qed.

(** The generator returns the first draw that is not taken, given fuel to
    reach it. *)
Lemma generateOrderNumber_returns env s j : forall fuel k,
  (forall i, (i < j)%nat -> orderNumberOf env (k + i) ∈ orderNumbers s) ->
  orderNumberOf env (k + j) ∉ orderNumbers s ->
  (j < fuel)%nat ->
  generateOrderNumber env fuel k (mkWorld s None)
  = (Ok (orderNumberOf env (k + j)), mkWorld s None).
Proof.
  induction j as [|j IH]; intros fuel k Htaken Hfree Hfuel;
    (destruct fuel as [|fuel]; [lia|]); cbn [generateOrderNumber];
    unfold bind, prisma.order_findUnique_orderNumber, call; cbn [outage store].
  - rewrite Nat.add_0_r in Hfree |- *.
    apply find_orderNumber_None in Hfree. unfold orderNumbers in Hfree.
    now rewrite Hfree.
  - destruct (List.find _ (orders s)) as [o|] eqn:E.
    + cbn [fmap option_fmap option_map].
      replace (k + S j)%nat with (S k + j)%nat in * by lia.
      apply IH; [|assumption|lia].
      intros i Hi. replace (S k + i)%nat with (k + S i)%nat by lia.
      apply Htaken. lia.
    + exfalso. apply find_orderNumber_None in E.
      apply E. specialize (Htaken O ltac:(lia)). now rewrite Nat.add_0_r in Htaken.
Qed.

(** ** Loops of stock updates *)

Lemma stockOf_restock s id delta q p :
  products s !! id = Some q ->
  stockOf (mkStore (<[id := restock delta q]> (products s)) (discountCodes s) (orders s)) p
  = (fun z => z + (if decide (id = p) then delta else 0)) <$> stockOf s p.
Proof.
  intros Hq. unfold stockOf. cbn [products].
  destruct (decide (id = p)) as [->|Hne].
  - rewrite lookup_insert_eq, Hq. reflexivity.
  - rewrite lookup_insert_ne by assumption.
    destruct (products s !! p); cbn; [f_equal; lia | reflexivity].
Qed.

Lemma forEach_stock_post {A} (key : A -> string) (delta : A -> Z) (l : list A) :
  forall w,
  post (forEach l (fun x => prisma.product_update_stock (key x) (delta x))) w
    (fun r w' =>
      discountCodes (store w') = discountCodes (store w) /\
      orders (store w') = orders (store w) /\
      stays_up w w' /\
      match r with
      | Ok _ =>
          forall p, stockOf (store w') p
                    = (fun z => z + moved key delta p l) <$> stockOf (store w) p
      | Replied _ => False
      | Thrown e =>
          from_outage w e \/
          (e = P2025 /\ ~ Forall (fun x => known (store w) (key x)) l)
      | Looping => False
      end).
Proof.
  induction l as [|x rest IH]; intros w; cbn [forEach].
  - apply post_ret. repeat (split; [auto using stays_up_refl|]).
    intros p. cbn [moved]. destruct (stockOf (store w) p); cbn; [f_equal; lia | reflexivity].
  - apply post_bind, post_call.
    + intros H. repeat (split; [auto using stays_up_refl|]).
      left. now apply from_outage_now.
    + intros _. destruct (products (store w) !! key x) as [q|] eqn:Hq.
      * eapply post_mono; [apply IH|]. cbn [store discountCodes orders].
        intros r w' (Hd & Ho & Hup & Hr).
        repeat (split; [eauto using stays_up_trans, stays_up_pred|]).
        destruct r as [[]| |e|]; auto.
        -- intros p. rewrite Hr, stockOf_restock by assumption. cbn [moved].
           destruct (stockOf (store w) p); cbn; [f_equal; lia | reflexivity].
        -- destruct Hr as [Hr|[-> Hr]]; [left; eauto using from_outage_later|].
           right. split; [reflexivity|]. intros Hall. apply Hr.
           apply Forall_cons in Hall as [_ Hall].
           eapply Forall_impl; [exact Hall|].
           intros y. unfold known. cbn [store products].
           destruct (decide (key x = key y)) as [<-|Hne].
           ++ rewrite lookup_insert_eq. eauto.
           ++ now rewrite lookup_insert_ne.
      * cbn [store discountCodes orders].
        repeat (split; [auto using stays_up_pred|]).
        right. split; [reflexivity|]. intros Hall.
        apply Forall_cons in Hall as [[q Hq'] _]. congruence.
Qed.

(** ** Counting the use of a discount code *)

Lemma countDiscountUse_post code discount w :
  post (countDiscountUse code discount) w (fun r w' =>
    products (store w') = products (store w) /\
    orders (store w') = orders (store w) /\
    stays_up w w' /\
    match r with
    | Ok _ => discountCodes (store w') = countedUse code discount (discountCodes (store w))
    | Replied _ => False
    | Thrown e =>
        discountCodes (store w') = discountCodes (store w) /\
        (from_outage w e \/
         (e = P2025 /\ (0 <? discount)%float = true /\
          exists c, code = Some c /\ discountCodes (store w) !! c = None))
    | Looping => False
    end).
Proof.
  unfold countDiscountUse, countedUse.
  destruct code as [c|];
    [destruct (Js.truthy_string (Some c)); cbn [andb];
     [destruct (0 <? discount)%float eqn:Hpos|]|];
    try (apply post_ret; repeat (split; [auto using stays_up_refl|]); reflexivity).
  apply post_call.
  - intros H. repeat (split; [auto using stays_up_refl|]).
    left. now apply from_outage_now.
  - intros _. destruct (discountCodes (store w) !! c) as [d|] eqn:E;
      cbn [store products orders discountCodes];
      repeat (split; [auto using stays_up_pred|]).
    + reflexivity.
    + right. split; [reflexivity|]. split; [reflexivity|]. eauto.
Qed.

(** ** createOrder, phase by phase *)

Lemma post_eqn {A} (m : M A) w (P Q : Result A -> World -> Prop) :
  post m w P -> (forall r w', m w = (r, w') -> P r w' -> Q r w') -> post m w Q.
Proof.
  unfold post. intros HP H. apply H; [apply surjective_pairing | exact HP].
Qed.

Lemma same_db_up w w' : outage w = None -> same_db w w' -> w' = w.
Proof.
  intros Hup [Hs Hst]. specialize (Hst Hup).
  destruct w, w'; cbn in *. congruence.
Qed.

Lemma zero_not_positive : (0 <? 0)%float = false.
Proof. reflexivity. Qed.

Lemma discountValue_unknown env c subtotal codes :
  codes !! c = None -> discountValue env (Some c) subtotal codes = 0%float.
Proof.
  intros H. unfold discountValue. rewrite H. cbn [discountOf].
  now destruct (Js.truthy_string (Some c)).
Qed.

Lemma createOrder_post env fuel user body w :
  post (createOrder env fuel user body) w (fun r w' =>
    let s := store w in
    let s' := store w' in
    let validation := fst (validateItems (body_items body) (0%float, []) w) in
    stays_up w w' /\
    match r with
    | Ok x =>
        exists o v w2,
          x = created o /\ placed env user body s o /\
          validation = Ok v /\ subtotal o = fst v /\ items o = snd v /\
          same_db w w2 /\ fst (generateOrderNumber env fuel 0 w2) = Ok (orderNumber o) /\
          orders s' = orders s ++ [o] /\
          discountCodes s' = countedUse (body_discountCode body) (discount o) (discountCodes s) /\
          forall p, stockOf s' p = (fun z => z + decrements body p) <$> stockOf s p
    | Replied x => validation_reply x /\ validation = Replied x /\ s' = s
    | Looping =>
        s' = s /\
        exists v w2, validation = Ok v /\ same_db w w2 /\
                     fst (generateOrderNumber env fuel 0 w2) = Looping
    | Thrown e =>
        from_outage w e /\
        (s' = s \/
         exists o, placed env user body s o /\ orders s' = orders s ++ [o] /\
                   discountCodes s' = discountCodes s)
    end).
Proof.
  unfold createOrder. cbv zeta.
  apply post_bind. eapply post_eqn; [apply validateItems_post|].
  intros r1 w1 E1 (Hs1 & Hup1 & Hr1). rewrite E1. cbn [fst].
  destruct r1 as [v|x|e|]; [| | |contradiction].
  2:{ split; [assumption|]. split; [assumption|]. split; [reflexivity|assumption]. }
  2:{ split; [assumption|]. split; [assumption|]. left. assumption. }
  apply post_bind. eapply post_eqn; [apply computeDiscount_post|].
  intros r2 w2 E2 (Hs2 & Hup2 & Hr2).
  assert (Hdb2 : same_db w w2) by (split; [congruence | eauto using stays_up_trans]).
  destruct r2 as [d|x|e|]; [| contradiction | | contradiction].
  2:{ split; [apply Hdb2|]. split; [|left; apply Hdb2].
      destruct Hr2 as [-> Hr2]. split; [reflexivity|]. intros E. apply Hr2. auto. }
  apply post_bind. eapply post_eqn; [apply generateOrderNumber_post|].
  intros r3 w3 E3 (Hs3 & Hup3 & Hr3).
  assert (Hdb3 : same_db w w3).
  { destruct Hdb2. split; [congruence | eauto using stays_up_trans]. }
  destruct r3 as [n|x|e|]; [| contradiction | |].
  2:{ split; [apply Hdb3|]. split; [|left; apply Hdb3].
      destruct Hr3 as [-> Hr3]. split; [reflexivity|]. intros E. apply Hr3.
      now apply Hdb2. }
  2:{ split; [apply Hdb3|]. split; [apply Hdb3|].
      exists v, w2. rewrite E3. auto. }
  set (o := mkOrder n _ _ _ _ _ _ _ _ _ _ _ _ _).
  assert (Hplaced : placed env user body (store w) o).
  { destruct Hr3 as [Hn [j [_ Hj]]]. destruct Hdb2 as [Hdb2 _].
    constructor; cbn; try reflexivity; try congruence; eauto. }
  apply post_bind, post_call.
  { intros H. split; [apply Hdb3|]. split; [|left; apply Hdb3].
    split; [reflexivity|]. intros E. apply Hdb3 in E. congruence. }
  intros _. cbn beta iota.
  set (w4 := mkWorld _ _).
  assert (Hup4 : stays_up w w4).
  { eapply stays_up_trans; [apply Hdb3 | apply stays_up_pred]. }
  assert (Hout4 : forall e, from_outage w4 e -> from_outage w e).
  { intros e He. apply from_outage_later in He. destruct He as [-> He].
    split; [reflexivity|]. intros E. apply He. now apply Hdb3. }
  destruct Hdb3 as [Hs3' _].
  apply post_bind. eapply post_mono; [apply forEach_stock_post|].
  intros r5 w5 (Hd5 & Ho5 & Hup5 & Hr5). cbn [store w4 discountCodes orders] in *.
  assert (Hup5' : stays_up w w5) by eauto using stays_up_trans.
  destruct r5 as [[]|x|e|]; [| contradiction | | contradiction].
  2:{ split; [assumption|]. split.
      - destruct Hr5 as [Hr5|[_ Hr5]]; [now apply Hout4|].
        exfalso. apply Hr5. unfold known in *. cbn [store products].
        rewrite Hs3'. exact Hr1.
      - right. exists o. rewrite Ho5, Hd5, Hs3'. auto. }
  apply post_bind. eapply post_mono; [apply countDiscountUse_post|].
  intros r6 w6 (Hp6 & Ho6 & Hup6 & Hr6).
  assert (Hup6' : stays_up w w6) by eauto using stays_up_trans.
  assert (Hout5 : forall e, from_outage w5 e -> from_outage w e).
  { intros e [-> He]. apply Hout4. split; [reflexivity|]. intros E. apply He. auto. }
  destruct r6 as [[]|x|e|]; [| contradiction | | contradiction].
  - apply post_ret. split; [assumption|].
    exists o, v, w2. rewrite E3. cbn [fst].
    repeat (split; [first [reflexivity | assumption | congruence]|]).
    split; [rewrite Hr6, Hd5, Hs3'; reflexivity|].
    intros p. unfold stockOf at 1. rewrite Hp6. fold (stockOf (store w5) p).
    rewrite Hr5. unfold stockOf. cbn [products]. rewrite Hs3'. reflexivity.
  - destruct Hr6 as [Hd6 Hr6]. split; [assumption|]. split.
    + destruct Hr6 as [Hr6|(_ & Hpos & c & Hc & Hnone)]; [now apply Hout5|].
      exfalso. rewrite Hd5 in Hnone. cbn [discountCodes] in Hnone.
      rewrite Hr2, Hc, Hs1, <- Hs3', discountValue_unknown in Hpos by (rewrite Hs3'; congruence).
      discriminate.
    + right. exists o. rewrite Ho6, Ho5, Hd6, Hd5, Hs3'. auto.
Qed.

(** * cancelOrder *)

(** The [where] clause of [cancelOrder] lets the caller see the order. *)
Lemma cancelOrder_sees user id s o :
  orders s !! id = Some o ->
  role user = "ADMIN" \/ userId o = uid user ->
  prisma.order_findUnique id
    (if negb (String.eqb (role user) "ADMIN") then Some (uid user) else None)
    (mkWorld s None)
  = (Ok (Some o), mkWorld s None).
Proof.
  intros Ho Hmay. unfold prisma.order_findUnique, call. cbn. rewrite Ho.
  destruct (String.eqb_spec (role user) "ADMIN") as [E|E]; cbn; [reflexivity|].
  destruct Hmay as [Hadm|Hown]; [contradiction|].
  rewrite Hown, String.eqb_refl. reflexivity.
Qed.

Lemma cancelOrder_refuses user id reason s o :
  orders s !! id = Some o ->
  role user = "ADMIN" \/ userId o = uid user ->
  deliveryStatus o = DELIVERED \/ deliveryStatus o = CANCELLED ->
  cancelOrder user id reason (mkWorld s None) = (Replied cannotCancel, mkWorld s None).
Proof.
  intros Ho Hmay Hst. unfold cancelOrder, bind.
  rewrite (cancelOrder_sees user id s o Ho Hmay).
  destruct Hst as [-> | ->]; reflexivity.
Qed.

Lemma up_world w : outage w = None -> w = mkWorld (store w) None.
Proof. destruct w; cbn; intros ->; reflexivity. Qed.

(** An order that is [DELIVERED] or [CANCELLED] is not cancelled, in any
    world in which the database answers the lookup. *)
Lemma cancelOrder_refuses_stored user id reason w o :
  outage w <> Some O ->
  orders (store w) !! id = Some o ->
  role user = "ADMIN" \/ userId o = uid user ->
  deliveryStatus o = DELIVERED \/ deliveryStatus o = CANCELLED ->
  cancelOrder user id reason w
  = (Replied cannotCancel, mkWorld (store w) (Nat.pred <$> outage w)).
Proof.
  intros Hup Ho Hmay Hst. unfold cancelOrder, bind, prisma.order_findUnique, call.
  assert (Hsee : match (if negb (String.eqb (role user) "ADMIN")
                        then Some (uid user) else None) with
                 | Some u => if String.eqb (userId o) u then Some o else None
                 | None => Some o
                 end = Some o).
  { destruct (String.eqb_spec (role user) "ADMIN") as [E|E]; cbn [negb]; [reflexivity|].
    destruct Hmay as [Hadm|Hown]; [contradiction|].
    now rewrite Hown, String.eqb_refl. }
  destruct (outage w) as [[|n]|]; [contradiction| |];
    rewrite Ho, Hsee; destruct Hst as [-> | ->]; reflexivity.
Qed.

(** C6 (as the code has it). [cancelOrder] called by the owner or an
    administrator on an order whose products are in the catalogue:
    - is refused (400, nothing written) when the order is already
      [DELIVERED] or [CANCELLED];
    - otherwise, on a database that answers, answers 200, sets the
      delivery status to [CANCELLED] and adds to the stock of every
      product exactly the quantity the items of the order hold of it;
      cancelling again is then refused and writes nothing;
    - and is refused, with nothing written, in every later state of the
      store in which the order is stored as [DELIVERED] or [CANCELLED],
      whenever the database answers the lookup: the stored status is
      what keeps the stock from being restored again. *)
Theorem cancelOrder_restores_once user id reason s o :
  orders s !! id = Some o ->
  role user = "ADMIN" \/ userId o = uid user ->
  Forall (fun item => known s (productId item)) (items o) ->
  let out := cancelOrder user id reason (mkWorld s None) in
  let s' := store (snd out) in
  (deliveryStatus o = DELIVERED \/ deliveryStatus o = CANCELLED ->
   out = (Replied cannotCancel, mkWorld s None)) /\
  (deliveryStatus o <> DELIVERED -> deliveryStatus o <> CANCELLED ->
   exists o',
     fst out = Ok (mkResponse 200 cancelled (Some o')) /\
     deliveryStatus o' = CANCELLED /\ items o' = items o /\
     orders s' = <[id := o']> (orders s) /\
     discountCodes s' = discountCodes s /\
     (forall p, stockOf s' p = (fun z => z + reserved p (items o)) <$> stockOf s p) /\
     cancelOrder user id reason (snd out) = (Replied cannotCancel, snd out)) /\
  (forall user' reason' w2 o2,
     outage w2 <> Some O ->
     orders (store w2) !! id = Some o2 ->
     role user' = "ADMIN" \/ userId o2 = uid user' ->
     deliveryStatus o2 = DELIVERED \/ deliveryStatus o2 = CANCELLED ->
     fst (cancelOrder user' id reason' w2) = Replied cannotCancel /\
     store (snd (cancelOrder user' id reason' w2)) = store w2).
Proof.
  intros Ho Hmay Hknown out s'. split; [|split].
  - intros Hst. apply (cancelOrder_refuses user id reason s o); assumption.
  - intros Hd Hc. subst s' out.
    pose (w1 := mkWorld (mkStore (products s) (discountCodes s)
                           (<[id := cancelUpdate o reason o]> (orders s))) None).
    assert (Hrun : cancelOrder user id reason (mkWorld s None)
              = bind (restoreStock (items o))
                  (fun _ => ret (mkResponse 200 cancelled (Some (cancelUpdate o reason o))))
                  w1).
    { unfold cancelOrder. unfold bind at 1.
      rewrite (cancelOrder_sees user id s o Ho Hmay).
      rewrite !bool_decide_eq_false_2 by assumption. cbn [orb].
      unfold bind at 1. unfold prisma.order_update, call. cbn. rewrite Ho. reflexivity. }
    rewrite Hrun. clear Hrun.
    pose proof (forEach_stock_post productId quantity (items o) w1) as Hloop.
    unfold post in Hloop. fold (restoreStock (items o)) in Hloop.
    unfold bind. destruct (restoreStock (items o) w1) as [r w2].
    cbn [fst snd] in Hloop. destruct Hloop as (Hd2 & Ho2 & Hup2 & Hr2).
    specialize (Hup2 eq_refl).
    destruct r as [[]|x|e|]; [| contradiction | | contradiction].
    + exists (cancelUpdate o reason o). cbn [fst snd ret].
      rewrite (up_world w2 Hup2).
      repeat (split; [first [reflexivity | assumption]|]).
      apply (cancelOrder_refuses user id reason (store w2) (cancelUpdate o reason o)).
      * rewrite Ho2. cbn. apply list_lookup_insert_eq. eapply lookup_lt_Some, Ho.
      * exact Hmay.
      * right. reflexivity.
    + exfalso. destruct Hr2 as [[_ Hr2]|[_ Hr2]]; [now apply Hr2|].
      apply Hr2. exact Hknown.
  - intros user' reason' w2 o2 Hup2 Ho2 Hmay2 Hst2.
    rewrite (cancelOrder_refuses_stored user' id reason' w2 o2 Hup2 Ho2 Hmay2 Hst2).
    split; reflexivity.
Qed.

Lemma cancelOrder_restores_once_witness :
  let out := cancelOrder (mkUser "ana" "customer") 0 None (mkWorld (shop SHIPPED) None) in
  stockOf (shop SHIPPED) "p1" = Some 5 /\
  stockOf (store (snd out)) "p1" = Some 7 /\
  cancelOrder (mkUser "ana" "customer") 0 None (snd out) = (Replied cannotCancel, snd out).
Proof.
  pose proof (cancelOrder_restores_once (mkUser "ana" "customer") 0 None (shop SHIPPED)
                (order_of "ana" SHIPPED [mkOrderItem "p1" 2 35000%float 70000%float])
                eq_refl (or_intror eq_refl)) as H.
  cbv zeta in H |- *.
  destruct H as [_ [H _]].
  { repeat constructor. exists cafe. reflexivity. }
  destruct (H ltac:(discriminate) ltac:(discriminate)) as (o' & _ & _ & _ & _ & _ & Hstock & Hagain).
  split; [reflexivity|]. split; [|exact Hagain].
  rewrite Hstock. reflexivity.
Defined.

(** C6, counterexample: "ana" cancels her order of two units of "p1"
    (stock 5 to 7), [updateDeliveryStatus] then sets the order to
    [PROCESSING], and her second [cancelOrder] on the same order is
    answered 200 and takes the stock to 9. *)
Lemma cancelOrder_restores_twice :
  let w0 := mkWorld (shop PENDING) None in
  let first := cancelOrder ana 0 None w0 in
  let w2 := snd (updateDeliveryStatus env0 0 PROCESSING None None (snd first)) in
  let second := cancelOrder ana 0 None w2 in
  stockOf (store w0) "p1" = Some 5 /\
  (status <$> asyncHandler (fst first)) = Some 200 /\
  stockOf (store (snd first)) "p1" = Some 7 /\
  (deliveryStatus <$> orders (store w2) !! 0%nat) = Some PROCESSING /\
  (status <$> asyncHandler (fst second)) = Some 200 /\
  fst second <> Replied cannotCancel /\
  stockOf (store (snd second)) "p1" = Some 9.
Proof.
  cbv zeta. repeat (split; [reflexivity|]). split; [discriminate | reflexivity].
Qed.

(** C9 (as the code has it). A caller who is neither an administrator nor
    the owner of an existing order gets from [cancelOrder] the very reply
    given for an order that does not exist, 404 "Orden no encontrada",
    and nothing is written. *)
Theorem cancelOrder_other_user_not_found user id reason w o :
  orders (store w) !! id = Some o ->
  role user <> "ADMIN" ->
  userId o <> uid user ->
  outage w <> Some O ->
  let out := cancelOrder user id reason w in
  fst out = Replied orderNotFound /\
  status orderNotFound = 404 /\
  store (snd out) = store w /\
  (forall missing, orders (store w) !! missing = None ->
     fst (cancelOrder user missing reason w) = fst out).
Proof.
  intros Ho Hrole Hown Hup out. subst out.
  assert (Hcall : forall i, orders (store w) !! i = None \/ i = id ->
            cancelOrder user i reason w
            = (Replied orderNotFound, mkWorld (store w) (Nat.pred <$> outage w))).
  { intros i Hi. unfold cancelOrder, bind, prisma.order_findUnique, call.
    destruct (outage w) as [[|n]|]; [contradiction| |];
      (destruct Hi as [-> | ->]; [reflexivity|]); rewrite Ho;
      (destruct (String.eqb_spec (role user) "ADMIN") as [E|E]; [contradiction|]);
      cbn [negb];
      (destruct (String.eqb_spec (userId o) (uid user)) as [E'|E']; [contradiction|]);
      reflexivity. }
  rewrite (Hcall id (or_intror eq_refl)). cbn [fst snd store].
  repeat (split; [reflexivity|]).
  intros missing Hm. now rewrite (Hcall missing (or_introl Hm)).
Qed.

Lemma cancelOrder_other_user_not_found_witness :
  fst (cancelOrder (mkUser "luis" "customer") 0 None (mkWorld (shop SHIPPED) None))
  = Replied orderNotFound /\
  store (snd (cancelOrder (mkUser "luis" "customer") 0 None (mkWorld (shop SHIPPED) None)))
  = shop SHIPPED.
Proof.
  pose proof (cancelOrder_other_user_not_found (mkUser "luis" "customer") 0 None
                (mkWorld (shop SHIPPED) None) _ eq_refl) as H.
  cbv zeta in H.
  destruct H as (H1 & _ & H2 & _); [discriminate | discriminate | discriminate |].
  split; [exact H1 | exact H2].
Defined.

(** C9, counterexample: the order of "ana" exists, "luis" is not an
    administrator, and the reply carries status 404, not 403, the same
    reply as for the identifier 7 that no order has. *)
Lemma cancelOrder_forbidden_is_not_found :
  let w := mkWorld (shop SHIPPED) None in
  let luis := mkUser "luis" "customer" in
  (exists o, orders (store w) !! O = Some o /\ userId o = "ana") /\
  orders (store w) !! 7%nat = None /\
  (status <$> asyncHandler (fst (cancelOrder luis 0 None w))) = Some 404 /\
  asyncHandler (fst (cancelOrder luis 0 None w))
  = asyncHandler (fst (cancelOrder luis 7 None w)).
Proof.
  cbv zeta. split; [eexists; split; reflexivity|].
  repeat split; reflexivity.
Qed.

(** * updateDeliveryStatus *)

(** C7 (as the code has it). On a database that answers,
    [updateDeliveryStatus] on an existing order stores the requested
    delivery status whatever the current one is, and answers 200; its only
    refusal is 404 for an order that does not exist. The delivered
    timestamp is set to the clock reading whenever the requested status is
    [DELIVERED], and is left as it was otherwise. *)
Theorem updateDeliveryStatus_stores_any env id requested tracking estimated s :
  let out := updateDeliveryStatus env id requested tracking estimated (mkWorld s None) in
  let s' := store (snd out) in
  match orders s !! id with
  | None => out = (Replied orderNotFound, mkWorld s None)
  | Some o =>
      exists o',
        fst out = Ok (mkResponse 200 deliveryUpdated (Some o')) /\
        orders s' = <[id := o']> (orders s) /\
        products s' = products s /\
        deliveryStatus o' = requested /\
        deliveredAt o' = (if decide (requested = DELIVERED)
                          then Some (Js.getTime (now env)) else deliveredAt o)
  end.
Proof.
  cbv zeta. unfold updateDeliveryStatus, bind, prisma.order_findUnique,
    prisma.order_update, call. cbn.
  destruct (orders s !! id) as [o|] eqn:Ho; [|reflexivity].
  cbn. rewrite Ho. cbn. eexists. repeat split; reflexivity.
Qed.

(** C7, counterexample: an order delivered at time 500 is taken back to
    [PENDING] by a later request, which is accepted with 200; and a
    second request for [DELIVERED] at time 1000 overwrites the delivered
    timestamp. *)
Lemma updateDeliveryStatus_leaves_terminal :
  let env := mkEnv (Js.mkDate 1000 2026 10 2) (fun _ => 0%N) in
  let o := mkOrder "CHE2611020001" "ana" 0%float 0%float 5000%float 0%float 5000%float
             None None [] DELIVERED None None (Some 500) in
  let w := mkWorld (mkStore ∅ ∅ [o]) None in
  let back := updateDeliveryStatus env 0 PENDING None None w in
  let again := updateDeliveryStatus env 0 DELIVERED None None w in
  (status <$> asyncHandler (fst back)) = Some 200 /\
  (deliveryStatus <$> orders (store (snd back)) !! O) = Some PENDING /\
  (status <$> asyncHandler (fst again)) = Some 200 /\
  (deliveredAt <$> orders (store (snd again)) !! O) = Some (Some 1000).
Proof. cbv zeta. repeat split; reflexivity. Qed.

(** * createOrder *)

Ltac createOrder_cases env fuel user body w H :=
  let r := fresh "r" in
  let w' := fresh "w'" in
  pose proof (createOrder_post env fuel user body w) as H;
  unfold post in H; cbv zeta in H;
  destruct (createOrder env fuel user body w) as [r w'];
  cbn [fst snd] in H |- *;
  destruct H as [_ H];
  destruct r as [?x|?x|?e|].

(** The store after [createOrder] is the store before it, or holds one
    more order, the one of the request. *)
Lemma createOrder_appends env fuel user body w :
  let s := store w in
  let s' := store (snd (createOrder env fuel user body w)) in
  s' = s \/ exists o, orders s' = orders s ++ [o] /\ placed env user body s o.
Proof.
  cbv zeta. createOrder_cases env fuel user body w H.
  - destruct H as (o & v & w2 & _ & Hpl & _ & _ & _ & _ & _ & Ho & _). right. eauto.
  - destruct H as (_ & _ & Hs). left. assumption.
  - destruct H as [_ [Hs | (o & Hpl & Ho & _)]]; [left | right]; eauto.
  - destruct H as [Hs _]. left. assumption.
Qed.

(** C1 (as the code has it). [createOrder] runs without a transaction and
    undoes nothing, but it writes in a fixed order:
    - the items are validated, reading only, before anything is written,
      so a refused item (product missing, product inactive, stock
      insufficient) leaves the store as it was;
    - the order is persisted before the first stock decrement, so the
      store is either untouched or holds the new order: stock is never
      decremented without a persisted order;
    - when the handler ends normally, the order is the last of the store
      and every product's stock went down by the quantities requested
      of it;
    - the handler throws only what a failing database makes it throw, and
      then leaves the store as the calls before the failure made it. *)
Theorem createOrder_persists_before_stock env fuel user body w :
  let out := createOrder env fuel user body w in
  let s := store w in
  let s' := store (snd out) in
  (forall x, fst out = Replied x -> validation_reply x /\ s' = s) /\
  (s' = s \/ exists o, orders s' = orders s ++ [o] /\ placed env user body s o) /\
  (forall x, fst out = Ok x ->
     exists o, x = created o /\ orders s' = orders s ++ [o] /\
       forall p, stockOf s' p = (fun z => z + decrements body p) <$> stockOf s p) /\
  (forall e, fst out = Thrown e -> e = Unavailable /\ outage w <> None).
Proof.
  cbv zeta. createOrder_cases env fuel user body w H.
  - destruct H as (o & v & w2 & -> & Hpl & _ & _ & _ & _ & _ & Ho & _ & Hst).
    split; [discriminate|]. split; [right; eauto|].
    split; [|discriminate]. intros x [= <-]. eauto.
  - destruct H as (Hx & _ & Hs).
    split; [intros ? [= <-]; auto|]. split; [left; assumption|].
    split; discriminate.
  - destruct H as [Hout H]. split; [discriminate|].
    split; [destruct H as [Hs | (o & Hpl & Ho & _)]; [left | right]; eauto|].
    split; [discriminate|]. intros e' [= <-]. exact Hout.
  - destruct H as [Hs _].
    split; [discriminate|]. split; [left; assumption|]. split; discriminate.
Qed.

(** C1, counterexample: two products in stock, a database that fails at
    its sixth call, that is at the second stock decrement. The caller gets
    the error (500), the order stays persisted and the first product
    stays decremented from 5 to 3: nothing is rolled back or released. *)
Lemma createOrder_not_atomic :
  let s := mkStore {[ "p1" := cafe; "p2" := te ]} ∅ [] in
  let body := mkBody [mkItem "p1" 2; mkItem "p2" 1] None None in
  let out := createOrder env0 1 ana body (mkWorld s (Some 5%nat)) in
  fst out = Thrown Unavailable /\
  (status <$> asyncHandler (fst out)) = Some 500 /\
  stockOf s "p1" = Some 5 /\
  stockOf (store (snd out)) "p1" = Some 3 /\
  stockOf (store (snd out)) "p2" = Some 5 /\
  length (orders (store (snd out))) = 1%nat.
Proof. cbv zeta. vm_compute. repeat split; reflexivity. Qed.

(** C2, at the failing input: one product with stock 5 and an order of
    two lines of 3 of it. Each line passes the stock check on its own,
    the order is created (201) and the stock ends at -1. *)
Theorem createOrder_oversells :
  let s := mkStore {[ "p1" := cafe ]} ∅ [] in
  let body := mkBody [mkItem "p1" 3; mkItem "p1" 3] None None in
  let out := createOrder env0 1 ana body (mkWorld s None) in
  stockOf s "p1" = Some 5 /\
  (status <$> asyncHandler (fst out)) = Some 201 /\
  stockOf (store (snd out)) "p1" = Some (-1).
Proof. cbv zeta. vm_compute. repeat split; reflexivity. Qed.

(** Pricing is binary64 arithmetic on the numbers handed to the store:
    one unit at 20004 with 10% off gives the subtotal 20004, the discount
    2000.4, the tax 3420.6839999999997 and the total 26424.284, while
    [(subtotal - discount) * (1 + 0.19) + shipping] evaluates to
    26424.283999999996. What the money columns of the schema make of
    these numbers when they store them is outside the model. *)
Example pricing_drift_scenario :
  let s := mkStore {[ "p1" := mkProduct "Cafe" 20004%float true 5 ]}
             {[ "SAVE10" := promo 5 ]} [] in
  let out := createOrder env0 1 ana promo_body (mkWorld s None) in
  exists o,
    fst out = Ok (created o) /\
    subtotal o = 20004%float /\ discount o = 2000.4%float /\ shipping o = 5000%float /\
    tax o = 3420.6839999999997%float /\
    total o = 26424.284%float /\
    ((subtotal o - discount o) * (1 + 0.19) + shipping o)%float = 26424.283999999996%float /\
    (total o =? (subtotal o - discount o) * (1 + 0.19) + shipping o)%float = false.
Proof. cbv zeta. eexists. split; [vm_compute; reflexivity|]. repeat split; reflexivity. Qed.

(** C10 (as the code has it). When [createOrder] completes and creates
    the order, with the discount that the discount block computed, the
    use counter of the supplied code goes up by one, and no other row of
    the codes changes, if that discount is positive; with a discount
    that is not positive (no code, a code that is refused, a discount of
    zero) the codes are left as they were. When [createOrder] does not
    complete (a reply of the validation, a call that the database
    rejects, also after the order was persisted, a generator still
    drawing) the codes are left as they were. *)
Theorem createOrder_counts_use_iff_positive env fuel user body w :
  let out := createOrder env fuel user body w in
  let codes := discountCodes (store w) in
  let codes' := discountCodes (store (snd out)) in
  match fst out with
  | Ok x =>
      exists o,
        x = created o /\
        discount o = discountValue env (body_discountCode body) (subtotal o) codes /\
        if (0 <? discount o)%float
        then exists c d,
               body_discountCode body = Some c /\ codes !! c = Some d /\
               codes' = <[c := redeemed d]> codes /\
               usedCount (redeemed d) = usedCount d + 1
        else codes' = codes
  | _ => codes' = codes
  end.
Proof.
  cbv zeta. createOrder_cases env fuel user body w H.
  - destruct H as (o & v & w2 & -> & Hpl & _ & _ & _ & _ & _ & _ & Hc & _).
    exists o. split; [reflexivity|]. rewrite Hc.
    destruct Hpl as [_ _ _ Hd _ _ _ _ _ _]. split; [exact Hd|]. revert Hd.
    unfold countedUse, discountValue.
    destruct (body_discountCode body) as [c|].
    + destruct (Js.truthy_string (Some c)); cbn [andb].
      * destruct (discountCodes (store w) !! c) as [d|] eqn:E.
        -- intros _. destruct (0 <? discount o)%float; [|reflexivity].
           exists c, d. auto.
        -- cbn [discountOf]. intros ->. reflexivity.
      * intros ->. reflexivity.
    + intros ->. reflexivity.
  - destruct H as (_ & _ & ->). reflexivity.
  - destruct H as [_ [-> | (o & _ & _ & ->)]]; reflexivity.
  - destruct H as [-> _]. reflexivity.
Qed.

(** C10, counterexample: one unit of "p1" with the code "SAVE10" (10%
    off), the database rejecting its sixth call, the update of the use
    counter. The request ends in an error; the order is persisted with a
    discount of 3500 and the stock is decremented, and the use counter
    of "SAVE10" is still 0. *)
Lemma createOrder_persists_discount_uncounted :
  let w := mkWorld (promo_shop 5) (Some 5%nat) in
  let out := createOrder env0 1 ana promo_body w in
  (usedCount <$> discountCodes (store w) !! "SAVE10") = Some 0 /\
  fst out = Thrown Unavailable /\
  (discount <$> last (orders (store (snd out)))) = Some 3500%float /\
  (0 <? 3500)%float = true /\
  stockOf (store (snd out)) "p1" = Some 4 /\
  (usedCount <$> discountCodes (store (snd out)) !! "SAVE10") = Some 0.
Proof. cbv zeta. repeat split; vm_compute; reflexivity. Qed.

(** * generateOrderNumber *)

(** As long as every draw is taken the generator keeps drawing. *)
Lemma generateOrderNumber_loops env s : forall fuel k,
  (forall i, (i < fuel)%nat -> orderNumberOf env (k + i) ∈ orderNumbers s) ->
  generateOrderNumber env fuel k (mkWorld s None) = (Looping, mkWorld s None).
Proof.
  induction fuel as [|fuel IH]; intros k Htaken; cbn [generateOrderNumber].
  - reflexivity.
  - unfold bind, prisma.order_findUnique_orderNumber, call; cbn [outage store].
    destruct (List.find _ (orders s)) as [o|] eqn:E.
    + cbn [fmap option_fmap option_map]. apply IH.
      intros i Hi. replace (S k + i)%nat with (k + S i)%nat by lia.
      apply Htaken. lia.
    + exfalso. apply find_orderNumber_None in E. apply E.
      specialize (Htaken O ltac:(lia)). now rewrite Nat.add_0_r in Htaken.
Qed.

Lemma createOrder_keeps_numbers_distinct env fuel user body w :
  NoDup (orderNumbers (store w)) ->
  NoDup (orderNumbers (store (snd (createOrder env fuel user body w)))).
Proof.
  intros Hnodup.
  destruct (createOrder_appends env fuel user body w) as [-> | (o & Ho & Hpl)];
    [assumption|].
  unfold orderNumbers in *. rewrite Ho, fmap_app. cbn [fmap list_fmap].
  apply NoDup_app. split; [assumption|]. split; [|apply NoDup_singleton].
  intros n Hn Hin. apply list_elem_of_singleton in Hin. subst n.
  now apply (placed_fresh _ _ _ _ _ Hpl).
Qed.

Lemma orderNumbers_insert (l : list Order) id o o' :
  l !! id = Some o -> orderNumber o' = orderNumber o ->
  orderNumber <$> <[id := o']> l = orderNumber <$> l.
Proof.
  intros Hl Hn. rewrite list_fmap_insert, Hn.
  apply list_insert_id. now rewrite list_lookup_fmap, Hl.
Qed.

(** The other two handlers leave the order numbers as they are. *)
Lemma updateDeliveryStatus_keeps_numbers env id requested tracking estimated w :
  orderNumbers (store (snd (updateDeliveryStatus env id requested tracking estimated w)))
  = orderNumbers (store w).
Proof.
  change (post (updateDeliveryStatus env id requested tracking estimated) w
            (fun _ w' => orderNumbers (store w') = orderNumbers (store w))).
  unfold updateDeliveryStatus. apply post_bind, post_call; [reflexivity|].
  intros _. cbn beta iota.
  destruct (orders (store w) !! id) as [o|] eqn:Ho; [|reflexivity].
  apply post_bind, post_call; [reflexivity|]. intros _. cbn [store]. rewrite Ho.
  apply post_ret. unfold orderNumbers. cbn [store orders].
  now apply (orderNumbers_insert _ id o).
Qed.

Lemma cancelOrder_keeps_numbers user id reason w :
  orderNumbers (store (snd (cancelOrder user id reason w))) = orderNumbers (store w).
Proof.
  change (post (cancelOrder user id reason) w
            (fun _ w' => orderNumbers (store w') = orderNumbers (store w))).
  unfold cancelOrder. cbv zeta. apply post_bind, post_call; [reflexivity|].
  intros _. cbn beta iota.
  destruct (match orders (store w) !! id with Some o => _ | None => None end) as [read|];
    [|reflexivity].
  destruct (bool_decide (deliveryStatus read = DELIVERED)
            || bool_decide (deliveryStatus read = CANCELLED)); [reflexivity|].
  apply post_bind, post_call; [reflexivity|]. intros _. cbn [store].
  destruct (orders (store w) !! id) as [o|] eqn:Ho; [|reflexivity].
  assert (Hw : orderNumbers
                 (mkStore (products (store w)) (discountCodes (store w))
                    (<[id := cancelUpdate read reason o]> (orders (store w))))
               = orderNumbers (store w)).
  { unfold orderNumbers. cbn [orders]. now apply (orderNumbers_insert _ id o). }
  apply post_bind. eapply post_mono; [apply forEach_stock_post|].
  intros r w' (_ & Ho' & _). cbn [store orders] in Ho'.
  assert (Hw' : orderNumbers (store w') = orderNumbers (store w)).
  { rewrite <- Hw. unfold orderNumbers. now rewrite Ho'. }
  destruct r; exact Hw'.
Qed.

(** C3 (as the code has it). A number that [generateOrderNumber] returns
    is the number of no persisted order, and the generator neither replies
    nor raises an error of its own. It returns the first draw that is
    free, after any number of collisions: there is no bound on the draws,
    and while every draw collides it is still looping. [createOrder]
    therefore keeps the order numbers of the store pairwise distinct, and
    the handlers that update an order do not touch its number. *)
Theorem generateOrderNumber_fresh env fuel :
  (forall k w,
     match fst (generateOrderNumber env fuel k w) with
     | Ok n =>
         (n ∉ orderNumbers (store w)) /\ store (snd (generateOrderNumber env fuel k w)) = store w
     | Replied _ => False
     | Thrown e => from_outage w e
     | Looping => True
     end) /\
  (forall s k j,
     (forall i, (i < j)%nat -> orderNumberOf env (k + i) ∈ orderNumbers s) ->
     orderNumberOf env (k + j) ∉ orderNumbers s ->
     (j < fuel)%nat ->
     generateOrderNumber env fuel k (mkWorld s None)
     = (Ok (orderNumberOf env (k + j)), mkWorld s None)) /\
  (forall s k,
     (forall i, (i < fuel)%nat -> orderNumberOf env (k + i) ∈ orderNumbers s) ->
     generateOrderNumber env fuel k (mkWorld s None) = (Looping, mkWorld s None)) /\
  (forall user body w,
     NoDup (orderNumbers (store w)) ->
     NoDup (orderNumbers (store (snd (createOrder env fuel user body w))))) /\
  (forall user id reason requested tracking estimated w,
     orderNumbers (store (snd (cancelOrder user id reason w))) = orderNumbers (store w) /\
     orderNumbers (store (snd (updateDeliveryStatus env id requested tracking estimated w)))
     = orderNumbers (store w)).
Proof.
  split; [|split; [|split; [|split]]].
  - intros k w. pose proof (generateOrderNumber_post env fuel k w) as H.
    unfold post in H. destruct (generateOrderNumber env fuel k w) as [r w'].
    cbn [fst snd] in *. destruct H as (Hs & _ & Hr).
    destruct r; auto. destruct Hr as [Hn _]. auto.
  - intros s k j. apply generateOrderNumber_returns.
  - intros s k. apply generateOrderNumber_loops.
  - intros user body w. apply createOrder_keeps_numbers_distinct.
  - intros user id reason requested tracking estimated w.
    split; [apply cancelOrder_keeps_numbers | apply updateDeliveryStatus_keeps_numbers].
Qed.

(** C3, counterexample: the number "CHE2611020001" is taken and every
    draw is 1. No number of draws ends the loop: whatever the fuel, the
    generator has neither returned nor raised an error. *)
Lemma generateOrderNumber_unbounded :
  let env := mkEnv (Js.mkDate 1000 2026 10 2) (fun _ => 1%N) in
  ~ exists attempts,
      fst (generateOrderNumber env attempts 0 (mkWorld (shop PENDING) None)) <> Looping.
Proof.
  cbv zeta. intros [attempts H]. apply H.
  rewrite generateOrderNumber_loops; [reflexivity|].
  intros i _. vm_compute. apply list_elem_of_here.
Qed.

(** * Discount codes *)

(** The discount block gives a positive discount only through its
    innermost branch. *)
Lemma discountOf_positive t subtotal d :
  (0 <? discountOf t subtotal (Some d))%float = true ->
  dactive d = true /\
  (validFrom d <=? t) && (t <=? validUntil d) = true /\
  underUsageCap d = true /\
  meetsMinAmount d subtotal = true.
Proof.
  cbn [discountOf].
  destruct (dactive d); [|discriminate].
  destruct ((validFrom d <=? t) && (t <=? validUntil d)); [|discriminate].
  destruct (underUsageCap d); [|discriminate].
  destruct (meetsMinAmount d subtotal); [|discriminate].
  auto.
Qed.

Lemma underUsageCap_capped d m :
  maxUses d = Some m -> m <> 0 -> underUsageCap d = (usedCount d <? m).
Proof.
  intros Hm Hne. unfold underUsageCap. rewrite Hm. cbn [Js.truthy_int].
  apply Z.eqb_neq in Hne. rewrite Hne. reflexivity.
Qed.

Lemma countedUse_capped env code subtotal codes c d m :
  codes !! c = Some d -> maxUses d = Some m -> m <> 0 ->
  let amount := discountValue env code subtotal codes in
  exists d',
    countedUse code amount codes !! c = Some d' /\
    maxUses d' = Some m /\
    (usedCount d' = usedCount d \/
     (usedCount d' = usedCount d + 1 /\ usedCount d < m /\
      code = Some c /\ (0 <? amount)%float = true)) /\
    (m <= usedCount d -> code = Some c -> amount = 0%float).
Proof.
  intros Hc Hm Hne amount. subst amount.
  assert (Hfull : m <= usedCount d -> forall t, discountOf t subtotal (Some d) = 0%float).
  { intros Hle t. cbn [discountOf]. rewrite (underUsageCap_capped d m Hm Hne).
    replace (usedCount d <? m) with false by (symmetry; apply Z.ltb_ge; lia).
    destruct (dactive d); [|reflexivity].
    destruct ((validFrom d <=? t) && (t <=? validUntil d)); reflexivity. }
  unfold countedUse, discountValue.
  destruct code as [c0|].
  2:{ exists d. repeat (split; [auto|]). discriminate. }
  destruct (Js.truthy_string (Some c0)); cbn [andb].
  2:{ exists d. repeat (split; [auto|]). reflexivity. }
  destruct (decide (c0 = c)) as [->|Hne0].
  - rewrite Hc.
    destruct (0 <? discountOf _ subtotal (Some d))%float eqn:Hpos.
    + apply discountOf_positive in Hpos as Hwhy.
      destruct Hwhy as (_ & _ & Hcap & _).
      rewrite (underUsageCap_capped d m Hm Hne) in Hcap. apply Z.ltb_lt in Hcap.
      exists (redeemed d). rewrite lookup_insert_eq.
      split; [reflexivity|]. split; [exact Hm|]. split.
      * right. cbn. auto.
      * intros Hle. lia.
    + exists d. repeat (split; [auto|]). intros Hle _. now apply Hfull.
  - exists d. split.
    + destruct (0 <? _)%float; [|assumption].
      destruct (codes !! c0); [|assumption]. now rewrite lookup_insert_ne.
    + repeat (split; [auto|]). intros _ [= ->]. contradiction.
Qed.

(** C5 (as the code has it). For a discount code whose usage cap
    [maxUses] is set and is not 0, every [createOrder] keeps the row and
    its cap, and keeps [usedCount <= maxUses]: the counter is either left
    as it was or goes up by one, the latter only when it was below the
    cap, the code is the one supplied, and the order was created with a
    positive discount. When the counter has reached the cap the code is
    not applied (the discount of the order is 0) and the counter is not
    incremented. *)
Theorem createOrder_respects_usage_cap env fuel user body w c d m :
  discountCodes (store w) !! c = Some d ->
  maxUses d = Some m ->
  m <> 0 ->
  let out := createOrder env fuel user body w in
  exists d',
    discountCodes (store (snd out)) !! c = Some d' /\
    maxUses d' = Some m /\
    (usedCount d <= m -> usedCount d' <= m) /\
    (usedCount d' = usedCount d \/
     (usedCount d' = usedCount d + 1 /\ usedCount d < m /\
      body_discountCode body = Some c /\
      exists o, fst out = Ok (created o) /\ (0 <? discount o)%float = true)) /\
    (m <= usedCount d ->
     usedCount d' = usedCount d /\
     (body_discountCode body = Some c ->
      forall o, fst out = Ok (created o) -> discount o = 0%float)).
Proof.
  intros Hc Hm Hne. cbv zeta.
  assert (Hsame : forall r w', discountCodes (store w') = discountCodes (store w) ->
            (forall o, r <> Ok (created o)) ->
            exists d',
              discountCodes (store w') !! c = Some d' /\ maxUses d' = Some m /\
              (usedCount d <= m -> usedCount d' <= m) /\
              (usedCount d' = usedCount d \/
               (usedCount d' = usedCount d + 1 /\ usedCount d < m /\
                body_discountCode body = Some c /\
                exists o, r = Ok (created o) /\ (0 <? discount o)%float = true)) /\
              (m <= usedCount d ->
               usedCount d' = usedCount d /\
               (body_discountCode body = Some c ->
                forall o, r = Ok (created o) -> discount o = 0%float))).
  { intros r w' -> Hr. exists d.
    split; [assumption|]. split; [assumption|]. split; [auto|].
    split; [left; reflexivity|].
    intros _. split; [reflexivity|]. intros _ o Ho. exfalso. exact (Hr o Ho). }
  createOrder_cases env fuel user body w H.
  - destruct H as (o & v & w2 & -> & Hpl & _ & _ & _ & _ & _ & _ & Hcodes & _).
    destruct (countedUse_capped env (body_discountCode body) (subtotal o) _ c d m Hc Hm Hne)
      as (d' & Hd' & Hm' & Hstep & Hfull).
    cbv zeta in *. rewrite <- (placed_discount _ _ _ _ _ Hpl) in *.
    exists d'. rewrite Hcodes. split; [exact Hd'|]. split; [exact Hm'|].
    split; [|split].
    + intros Hle. destruct Hstep as [-> | (-> & Hlt & _)]; lia.
    + destruct Hstep as [Hstep | (Hstep & Hlt & Hcode & Hpos)]; [left; exact Hstep|].
      right. repeat (split; [assumption|]). exists o. auto.
    + intros Hle. split.
      * destruct Hstep as [Hstep | (_ & Hlt & _)]; [exact Hstep | lia].
      * intros Hcode o' [= <-]. now apply Hfull.
  - destruct H as (_ & _ & Hs). apply Hsame; [now rewrite Hs | discriminate].
  - apply Hsame; [|discriminate].
    destruct H as [_ [-> | (o & _ & _ & ->)]]; reflexivity.
  - destruct H as [Hs _]. apply Hsame; [now rewrite Hs | discriminate].
Qed.

Lemma createOrder_respects_usage_cap_witness :
  exists d',
    discountCodes (store (snd (createOrder env0 1 ana promo_body (mkWorld (promo_shop 1) None))))
      !! "SAVE10" = Some d' /\
    usedCount d' = 1 /\ maxUses d' = Some 1.
Proof.
  destruct (createOrder_respects_usage_cap env0 1 ana promo_body
              (mkWorld (promo_shop 1) None) "SAVE10" (promo 1) 1
              eq_refl eq_refl ltac:(discriminate))
    as (d' & Hd' & Hm' & _).
  exists d'. split; [exact Hd'|]. split; [|exact Hm'].
  vm_compute in Hd'. injection Hd' as <-. reflexivity.
Defined.

(** C5, counterexample: the code "SAVE10" has a usage cap of 0 and no
    use so far. The guard [!maxUses] takes the cap for absent, the code is
    applied, and its counter goes to 1, above the cap. *)
Lemma createOrder_exceeds_zero_cap :
  let out := createOrder env0 1 ana promo_body (mkWorld (promo_shop 0) None) in
  (maxUses <$> discountCodes (promo_shop 0) !! "SAVE10") = Some (Some 0) /\
  (usedCount <$> discountCodes (promo_shop 0) !! "SAVE10") = Some 0 /\
  (status <$> asyncHandler (fst out)) = Some 201 /\
  (maxUses <$> discountCodes (store (snd out)) !! "SAVE10") = Some (Some 0) /\
  (usedCount <$> discountCodes (store (snd out)) !! "SAVE10") = Some 1.
Proof. cbv zeta. vm_compute. repeat split; reflexivity. Qed.

Lemma discountAmount_spec d subtotal :
  discountAmount d subtotal = Spec.clamp (maxDiscount d) (Spec.rawDiscount d subtotal).
Proof. reflexivity. Qed.

Lemma discountOf_spec t subtotal d :
  (Spec.redeemable t subtotal d ->
   discountOf t subtotal (Some d)
   = Spec.clamp (maxDiscount d) (Spec.rawDiscount d subtotal)) /\
  (Spec.rejected t subtotal d -> discountOf t subtotal (Some d) = 0%float) /\
  (Spec.redeemable t subtotal d \/ Spec.rejected t subtotal d).
Proof.
  unfold Spec.redeemable, Spec.rejected. cbn [discountOf].
  rewrite <- discountAmount_spec.
  unfold underUsageCap, meetsMinAmount.
  destruct (dactive d).
  2:{ split; [intros [? _]; discriminate|]. split; [reflexivity | right; left; reflexivity]. }
  destruct (Z.leb_spec (validFrom d) t) as [Hfrom|Hfrom]; cbn [andb].
  2:{ split; [intros (_ & ? & _); lia|]. split; [reflexivity | right; right; left; lia]. }
  destruct (Z.leb_spec t (validUntil d)) as [Huntil|Huntil].
  2:{ split; [intros (_ & ? & _); lia|].
      split; [reflexivity | right; right; right; left; lia]. }
  assert (Hcap : (negb (Js.truthy_int (maxUses d)) ||
                  match maxUses d with Some m => usedCount d <? m | None => false end) = true
                 /\ (forall m, maxUses d = Some m -> m <> 0 -> usedCount d < m)
                 \/ (negb (Js.truthy_int (maxUses d)) ||
                  match maxUses d with Some m => usedCount d <? m | None => false end) = false
                 /\ exists m, maxUses d = Some m /\ m <> 0 /\ m <= usedCount d).
  { destruct (maxUses d) as [m|]; cbn [Js.truthy_int].
    - destruct (Z.eqb_spec m 0) as [->|Hm]; cbn [negb orb].
      + left. split; [reflexivity|]. intros m [= <-] Hm. contradiction.
      + destruct (Z.ltb_spec (usedCount d) m) as [Hlt|Hge].
        * left. split; [reflexivity|]. intros m' [= <-] _. exact Hlt.
        * right. split; [reflexivity|]. exists m. auto.
    - left. split; [reflexivity|]. discriminate. }
  destruct Hcap as [[-> Hcap] | [-> (m & Hm & Hne & Hle)]].
  2:{ split; [intros (_ & _ & Hc & _); specialize (Hc m Hm Hne); lia|].
      split; [reflexivity|]. right. right. right. right. left. eauto. }
  destruct (minAmount d) as [a|]; cbn [Js.truthy_decimal negb orb].
  - destruct (a <=? subtotal)%float eqn:Ha.
    + split; [reflexivity|]. split.
      * intros [?|[?|[?|[(m & Hm & Hne & Hle)|(a' & [= <-] & Ha')]]]];
          try discriminate; try lia; try congruence.
        specialize (Hcap m Hm Hne). lia.
      * left. repeat (split; [auto|]). intros a' [= <-]. exact Ha.
    + split; [intros (_ & _ & _ & Hmin); specialize (Hmin a eq_refl); congruence|].
      split; [reflexivity|]. right. right. right. right. right. eauto.
  - split; [reflexivity|]. split.
    + intros [?|[?|[?|[(m & Hm & Hne & Hle)|(a' & ? & _)]]]];
        try discriminate; try lia.
      specialize (Hcap m Hm Hne). lia.
    + left. repeat (split; [auto|]). discriminate.
Qed.

(** C8 (as the code has it). On a database that answers, with a discount
    code supplied:
    - the code never aborts the order: when the items pass validation and
      the generator returns a number, the order is created;
    - the discount of the created order is [0] when the code does not
      exist; for an existing code that is active, inside its validity
      window, below its usage cap (a cap of 0 counts as no cap) and whose
      minimum amount the subtotal reaches, it is [subtotal * (value/100)]
      for a percentage code and [value] for a fixed-amount code, clamped to
      [maxDiscount] when set; and it is [0] in every rejection case. *)
Theorem createOrder_discount env fuel user body s c :
  body_discountCode body = Some c ->
  c <> "" ->
  let w := mkWorld s None in
  let out := createOrder env fuel user body w in
  let t := Js.getTime (now env) in
  ((exists v, fst (validateItems (body_items body) (0%float, []) w) = Ok v) ->
   (exists n, fst (generateOrderNumber env fuel 0 w) = Ok n) ->
   exists o, fst out = Ok (created o)) /\
  (forall o, fst out = Ok (created o) ->
     match discountCodes s !! c with
     | None => discount o = 0%float
     | Some d =>
         (Spec.redeemable t (subtotal o) d ->
          discount o = Spec.clamp (maxDiscount d) (Spec.rawDiscount d (subtotal o))) /\
         (Spec.rejected t (subtotal o) d -> discount o = 0%float) /\
         (Spec.redeemable t (subtotal o) d \/ Spec.rejected t (subtotal o) d)
     end).
Proof.
  intros Hcode Hc. cbv zeta.
  createOrder_cases env fuel user body (mkWorld s None) H.
  - destruct H as (o & v & w2 & -> & Hpl & _).
    split; [eauto|]. intros o' [= <-].
    rewrite (placed_discount _ _ _ _ _ Hpl), Hcode. cbn [store discountCodes].
    unfold discountValue.
    replace (Js.truthy_string (Some c)) with true by (destruct c; [contradiction|reflexivity]).
    destruct (discountCodes s !! c) as [d|]; [apply discountOf_spec | reflexivity].
  - destruct H as (_ & Hv & _).
    split; [|discriminate]. intros [v Hv'] _. congruence.
  - destruct H as [[_ Hout] _]. exfalso. now apply Hout.
  - destruct H as (_ & v & w2 & _ & Hdb & Hloop).
    split; [|discriminate]. intros _ [n Hn].
    apply same_db_up in Hdb; [|reflexivity]. subst w2. congruence.
Qed.

Lemma createOrder_discount_witness :
  exists o,
    fst (createOrder env0 1 ana promo_body (mkWorld (promo_shop 5) None)) = Ok (created o) /\
    subtotal o = 35000%float /\ discount o = 3500%float.
Proof.
  destruct (createOrder_discount env0 1 ana promo_body (promo_shop 5) "SAVE10"
              eq_refl ltac:(discriminate)) as [Hmade Hamount].
  cbv zeta in Hmade, Hamount.
  destruct Hmade as [o Ho]; [eexists; vm_compute; reflexivity .. |].
  exists o. split; [exact Ho|].
  specialize (Hamount o Ho). vm_compute in Ho. injection Ho as <-.
  split; reflexivity.
Defined.

(** C8, counterexample: "SAVE10" has a usage cap of 0, which its counter
    (0) has reached, and [createOrder] still takes 10% off the subtotal. *)
Lemma createOrder_discounts_at_zero_cap :
  let out := createOrder env0 1 ana promo_body (mkWorld (promo_shop 0) None) in
  Spec.usageCapReached (promo 0) /\
  exists o,
    fst out = Ok (created o) /\
    subtotal o = 35000%float /\ discount o = 3500%float /\
    (discount o =? 0)%float = false.
Proof.
  cbv zeta. split; [exists 0; split; [reflexivity | cbn; lia]|].
  eexists. split; [vm_compute; reflexivity|]. repeat split; reflexivity.
Qed.

(** * Scenarios of the specification, run on the model *)

(** Subtotal 100000, discount 10000, shipping 5000, tax rate 19%:
    tax 17100, total 112100. *)
Example pricing_scenario :
  taxOf 100000 10000 = 17100%float /\
  totalOf 100000 10000 5000 (taxOf 100000 10000) = 112100%float.
Proof. split; reflexivity. Qed.

(** "CHE", two digits each for year, month and day, four for the draw. *)
Example orderNumber_scenario : orderNumberOf env0 0 = "CHE2611020007".
Proof. reflexivity. Qed.

(** The number of an integer: exact where binary64 holds the integer, as
    at -2^63, and the nearest number, ties to even, elsewhere. *)
Example number_of_Z_scenario :
  Js.number_of_Z 3 = 3%float /\
  Js.number_of_Z (-4) = (-4)%float /\
  Js.number_of_Z (- 2 ^ 63) = (-9223372036854775808)%float /\
  (35000 * Js.number_of_Z (- 2 ^ 63))%float = (-3.2281802128991715e+23)%float /\
  Js.number_of_Z (2 ^ 53 + 1) = 9007199254740992%float /\
  Js.number_of_Z (2 ^ 53 + 3) = 9007199254740996%float.
Proof. repeat split; vm_compute; reflexivity. Qed.

(** A line of -2^63 units of a product at 35000, with stock 5: the line
    passes the stock check and its total is 35000 times the number
    -2^63. *)
Example huge_negative_quantity_scenario :
  fst (validateItems [mkItem "p1" (- 2 ^ 63)] (0%float, [])
         (mkWorld (mkStore {[ "p1" := cafe ]} ∅ []) None))
  = Ok ((-3.2281802128991715e+23)%float,
        [mkOrderItem "p1" (- 2 ^ 63) 35000%float (-3.2281802128991715e+23)%float]).
Proof. vm_compute. reflexivity. Qed.

(** The loop of [generateOrderNumber] reads the clock each time round:
    with the number of 2 November taken and every draw 7, a clock that
    reads 3 November at the second iteration gives the number of
    3 November. *)
Example midnight_scenario :
  let env := mkRequest (Js.mkDate 1000 2026 10 2) (fun _ => 7%N)
               (fun k => match k with
                         | O => Js.mkDate 1000 2026 10 2
                         | _ => Js.mkDate 2000 2026 10 3
                         end) in
  fst (generateOrderNumber env 2 0
         (mkWorld (mkStore ∅ ∅ [numbered "CHE2611020007"]) None))
  = Ok "CHE2611030007".
Proof. reflexivity. Qed.

(** A product with stock 5 and two orders of 3, one after the other: the
    first is created and leaves 2, the second is turned down with
    "Stock insuficiente" and writes nothing. *)
Example stock_scenario :
  let body := mkBody [mkItem "p1" 3] None None in
  let first := createOrder env0 1 ana body (mkWorld (mkStore {[ "p1" := cafe ]} ∅ []) None) in
  let second := createOrder env0 2 ana body (snd first) in
  (status <$> asyncHandler (fst first)) = Some 201 /\
  stockOf (store (snd first)) "p1" = Some 2 /\
  fst second = Replied insufficientStock /\
  store (snd second) = store (snd first).
Proof. cbv zeta. vm_compute. repeat split; reflexivity. Qed.

(** "SAVE10" (10%, minimum 20000, one use) on a subtotal of 35000: the
    discount is 3500 and the counter becomes 1; on a second order (whose
    first draw collides and whose second is free) the cap is reached, the
    discount is 0 and the counter stays at 1. *)
Example discount_scenario :
  let env := mkEnv (Js.mkDate 1000 2026 10 2) (fun k => N.of_nat (7 + k)) in
  let first := createOrder env 1 ana promo_body (mkWorld (promo_shop 1) None) in
  let second := createOrder env 2 ana promo_body (snd first) in
  (discount <$> orders (store (snd first)) !! O) = Some 3500%float /\
  (usedCount <$> discountCodes (store (snd first)) !! "SAVE10") = Some 1 /\
  (status <$> asyncHandler (fst second)) = Some 201 /\
  (discount <$> orders (store (snd second)) !! 1%nat) = Some 0%float /\
  (usedCount <$> discountCodes (store (snd second)) !! "SAVE10") = Some 1.
Proof. cbv zeta. vm_compute. repeat split; reflexivity. Qed.

(** * Further properties of the order handlers *)

(** ** What the validation loop hands on *)

Lemma validateItem_value item acc w :
  post (validateItem item acc) w (fun r w' =>
    store w' = store w /\
    match r with
    | Ok v =>
        exists l, lineFor (store w) item l /\
                  v = ((fst acc + itotal l)%float, snd acc ++ [l])
    | _ => True
    end).
Proof.
  unfold validateItem. apply post_bind, post_call; [intros _; split; [reflexivity | exact I]|].
  intros _. cbn [fst snd store].
  destruct (products (store w) !! item_productId item) as [p|] eqn:E;
    [|split; [reflexivity | exact I]].
  destruct (active p) eqn:Ha; cbn [negb]; [|split; [reflexivity | exact I]].
  destruct (Z.ltb_spec (stock p) (item_quantity item)) as [Hlt|Hge];
    [split; [reflexivity | exact I]|].
  apply post_ret. cbn [store]. split; [reflexivity|].
  exists (mkOrderItem (item_productId item) (item_quantity item) (price p)
            (price p * Js.number_of_Z (item_quantity item))%float).
  split; [|reflexivity].
  split; [reflexivity|]. split; [reflexivity|]. exists p. cbn. auto.
Qed.

Lemma validateItems_value items : forall acc w,
  post (validateItems items acc) w (fun r w' =>
    match r with
    | Ok v =>
        exists lines,
          Forall2 (lineFor (store w)) items lines /\
          snd v = snd acc ++ lines /\
          fst v = sumLines (fst acc) lines
    | _ => True
    end).
Proof.
  induction items as [|item rest IH]; intros acc w; cbn [validateItems].
  - apply post_ret. exists []. split; [constructor|].
    split; [now rewrite app_nil_r | reflexivity].
  - apply post_bind. eapply post_mono; [apply validateItem_value|].
    intros [v1| | |] w1 [Hs Hr]; try exact I.
    destruct Hr as (l & Hl & ->).
    eapply post_mono; [apply IH|].
    intros [v| | |] w2 Hv; try exact I.
    destruct Hv as (lines & Hlines & Hsnd & Hfst). cbn [fst snd] in *.
    exists (l :: lines). rewrite Hs in Hlines.
    split; [constructor; assumption|].
    split; [now rewrite Hsnd, <- app_assoc | exact Hfst].
Qed.

(** On a database that answers, the items that pass are gone through and
    the loop goes on with the rest. *)
Lemma validateItems_passes s pre rest : forall acc,
  Forall (passes s) pre ->
  exists acc',
    validateItems (pre ++ rest) acc (mkWorld s None)
    = validateItems rest acc' (mkWorld s None).
Proof.
  induction pre as [|item pre IH]; intros acc Hpre; cbn [app validateItems].
  - exists acc. reflexivity.
  - apply Forall_cons in Hpre as [(p & Hp & Ha & Hq) Hpre].
    unfold bind at 1. unfold validateItem, bind, prisma.product_findUnique, call.
    cbn [outage store fst snd]. rewrite Hp, Ha. cbn [negb].
    replace (stock p <? item_quantity item) with false
      by (symmetry; apply Z.ltb_ge; exact Hq).
    cbn. apply IH. exact Hpre.
Qed.

(** X1. On a database that answers, [createOrder] gives the reply of the
    first item that fails a check, and writes nothing: 404 when its
    product does not exist, 400 "Producto no disponible" when the product
    is inactive (whatever its stock), 400 "Stock insuficiente" when the
    product is active and its stock is below the quantity of the line.
    Lines after it are not looked at. *)
Theorem createOrder_first_refusal env fuel user body s pre item post_ :
  body_items body = pre ++ item :: post_ ->
  Forall (passes s) pre ->
  let out := createOrder env fuel user body (mkWorld s None) in
  match products s !! item_productId item with
  | None => out = (Replied productNotFound, mkWorld s None)
  | Some p =>
      (active p = false -> out = (Replied productUnavailable, mkWorld s None)) /\
      (active p = true -> stock p < item_quantity item ->
       out = (Replied insufficientStock, mkWorld s None))
  end.
Proof.
  intros Hitems Hpre. cbv zeta.
  destruct (validateItems_passes s pre (item :: post_) (0%float, []) Hpre) as [acc' Hrun].
  assert (Hreply : forall x,
            validateItem item acc' (mkWorld s None) = (Replied x, mkWorld s None) ->
            createOrder env fuel user body (mkWorld s None)
            = (Replied x, mkWorld s None)).
  { intros x Hx. unfold createOrder. unfold bind at 1. rewrite Hitems, Hrun.
    cbn [validateItems]. unfold bind at 1. now rewrite Hx. }
  destruct (products s !! item_productId item) as [p|] eqn:Hp.
  - split.
    + intros Ha. apply Hreply.
      unfold validateItem, bind, prisma.product_findUnique, call.
      cbn [outage store fst snd]. now rewrite Hp, Ha.
    + intros Ha Hlt. apply Hreply.
      unfold validateItem, bind, prisma.product_findUnique, call.
      cbn [outage store fst snd]. rewrite Hp, Ha. cbn [negb].
      replace (stock p <? item_quantity item) with true
        by (symmetry; apply Z.ltb_lt; exact Hlt).
      reflexivity.
  - apply Hreply.
    unfold validateItem, bind, prisma.product_findUnique, call.
    cbn [outage store fst snd]. now rewrite Hp.
Qed.

Lemma createOrder_first_refusal_witness :
  createOrder env0 1 ana (mkBody [mkItem "p1" 1; mkItem "p2" 9; mkItem "p9" 1] None None)
    (mkWorld (mkStore {[ "p1" := cafe; "p2" := te ]} ∅ []) None)
  = (Replied insufficientStock, mkWorld (mkStore {[ "p1" := cafe; "p2" := te ]} ∅ []) None).
Proof.
  pose proof (createOrder_first_refusal env0 1 ana
                (mkBody [mkItem "p1" 1; mkItem "p2" 9; mkItem "p9" 1] None None)
                (mkStore {[ "p1" := cafe; "p2" := te ]} ∅ [])
                [mkItem "p1" 1] (mkItem "p2" 9) [mkItem "p9" 1] eq_refl) as H.
  cbv zeta in H.
  assert (Hpre : Forall (passes (mkStore {[ "p1" := cafe; "p2" := te ]} ∅ []))
                   [mkItem "p1" 1]).
  { constructor; [|constructor]. exists cafe.
    split; [reflexivity|]. split; [reflexivity | cbn; lia]. }
  specialize (H Hpre). cbn in H. destruct H as [_ H].
  apply H; [reflexivity | cbn; lia].
Defined.

(** ** createOrder on a database that answers *)

Lemma createOrder_up env fuel user body s v n :
  fst (validateItems (body_items body) (0%float, []) (mkWorld s None)) = Ok v ->
  fst (generateOrderNumber env fuel 0 (mkWorld s None)) = Ok n ->
  exists o s',
    createOrder env fuel user body (mkWorld s None) = (Ok (created o), mkWorld s' None) /\
    placed env user body s o /\
    orderNumber o = n /\ subtotal o = fst v /\ items o = snd v /\
    orders s' = orders s ++ [o] /\
    discountCodes s'
    = countedUse (body_discountCode body) (discount o) (discountCodes s) /\
    forall p, stockOf s' p = (fun z => z + decrements body p) <$> stockOf s p.
Proof.
  intros Hv Hn.
  pose proof (createOrder_post env fuel user body (mkWorld s None)) as H.
  unfold post in H. cbv zeta in H.
  destruct (createOrder env fuel user body (mkWorld s None)) as [r w'].
  cbn [fst snd store] in H. destruct H as [Hup H].
  specialize (Hup eq_refl). rewrite (up_world w' Hup).
  destruct r as [x|x|e|].
  - destruct H as (o & v' & w2 & -> & Hpl & Hv' & Hsub & Hit & Hdb & Hgen & Ho & Hc & Hst).
    apply same_db_up in Hdb; [|reflexivity]. subst w2.
    exists o, (store w'). rewrite Hv in Hv'. injection Hv' as <-.
    rewrite Hn in Hgen. injection Hgen as Hgen.
    repeat (split; [first [reflexivity | assumption | now symmetry]|]). exact Hst.
  - destruct H as (_ & Hx & _). congruence.
  - destruct H as [[_ Hout] _]. exfalso. now apply Hout.
  - destruct H as (_ & v' & w2 & _ & Hdb & Hloop).
    apply same_db_up in Hdb; [|reflexivity]. subst w2. congruence.
Qed.

(** X2. The lines of the order that [createOrder] creates are the lines
    of the request, in their order; each carries the product's price as
    the store had it at validation and the line total [price * quantity],
    for a product that is active and has at least that stock; the
    subtotal is the sum of the line totals added up from 0 in that
    order. *)
Theorem createOrder_lines env fuel user body w :
  let out := createOrder env fuel user body w in
  match fst out with
  | Ok x =>
      exists o,
        x = created o /\
        Forall2 (lineFor (store w)) (body_items body) (items o) /\
        subtotal o = sumLines 0%float (items o)
  | _ => True
  end.
Proof.
  cbv zeta. pose proof (validateItems_value (body_items body) (0%float, []) w) as Hval.
  unfold post in Hval.
  createOrder_cases env fuel user body w H; try exact I.
  destruct H as (o & v & w2 & -> & _ & Hv & Hsub & Hit & _).
  rewrite Hv in Hval. destruct Hval as (lines & Hlines & Hsnd & Hfst).
  cbn [fst snd app] in Hsnd, Hfst.
  exists o. split; [reflexivity|]. rewrite Hit, Hsub, Hsnd, Hfst. auto.
Qed.

Lemma moved_nothing {A} (key : A -> string) (delta : A -> Z) p (l : list A) :
  p ∉ key <$> l -> moved key delta p l = 0.
Proof.
  induction l as [|x l IH]; cbn; [reflexivity|].
  intros Hp. apply not_elem_of_cons in Hp as [Hne Hp].
  rewrite decide_False by congruence. rewrite IH by assumption. reflexivity.
Qed.

Lemma moved_once {A} (key : A -> string) (delta : A -> Z) x (l : list A) :
  NoDup (key <$> l) -> x ∈ l -> moved key delta (key x) l = delta x.
Proof.
  induction l as [|y l IH]; cbn; intros Hnd Hx; [now apply elem_of_nil in Hx|].
  apply NoDup_cons in Hnd as [Hy Hnd].
  apply elem_of_cons in Hx as [->|Hx].
  - rewrite decide_True by reflexivity. rewrite moved_nothing by assumption. lia.
  - rewrite decide_False.
    + rewrite IH by assumption. lia.
    + intros E. apply Hy. rewrite E. now apply list_elem_of_fmap_2.
Qed.

(** X4. When the lines of the request name pairwise distinct products,
    the order that [createOrder] creates leaves every ordered product
    with its stock lowered by exactly the quantity of its line, which the
    stock check has bounded by the stock: no stock of an ordered product
    ends below 0, and the stock of every other product is as it was. *)
Theorem createOrder_distinct_products env fuel user body w :
  NoDup (item_productId <$> body_items body) ->
  let out := createOrder env fuel user body w in
  match fst out with
  | Ok _ =>
      (forall item, item ∈ body_items body ->
         exists p,
           products (store w) !! item_productId item = Some p /\
           stockOf (store (snd out)) (item_productId item)
           = Some (stock p - item_quantity item) /\
           0 <= stock p - item_quantity item) /\
      (forall id, id ∉ item_productId <$> body_items body ->
         stockOf (store (snd out)) id = stockOf (store w) id)
  | _ => True
  end.
Proof.
  intros Hnd. cbv zeta.
  pose proof (validateItems_value (body_items body) (0%float, []) w) as Hval.
  unfold post in Hval.
  createOrder_cases env fuel user body w H; try exact I.
  destruct H as (o & v & w2 & -> & _ & Hv & _ & _ & _ & _ & _ & _ & Hst).
  rewrite Hv in Hval. destruct Hval as (lines & Hlines & _).
  split.
  - intros item Hin.
    destruct (proj1 (list_elem_of_lookup _ _) Hin) as [i Hi].
    destruct (Forall2_lookup_l _ _ _ _ _ Hlines Hi) as (l & _ & _ & _ & p & Hp & _ & Hq & _).
    exists p. split; [exact Hp|]. split; [|lia].
    rewrite Hst. unfold stockOf at 1. rewrite Hp. cbn.
    unfold decrements. rewrite (moved_once item_productId _ item) by assumption.
    reflexivity.
  - intros id Hid. rewrite Hst. unfold decrements.
    rewrite moved_nothing by assumption.
    destruct (stockOf (store w) id); cbn; [f_equal; lia | reflexivity].
Qed.

Lemma createOrder_distinct_products_witness :
  stockOf (store (snd (createOrder env0 1 ana (mkBody [mkItem "p1" 5; mkItem "p2" 2] None None)
                         (mkWorld (mkStore {[ "p1" := cafe; "p2" := te ]} ∅ []) None))))
    "p1" = Some 0.
Proof.
  pose proof (createOrder_distinct_products env0 1 ana
                (mkBody [mkItem "p1" 5; mkItem "p2" 2] None None)
                (mkWorld (mkStore {[ "p1" := cafe; "p2" := te ]} ∅ []) None)) as H.
  cbv zeta in H.
  assert (Hnd : NoDup (item_productId <$> body_items
                         (mkBody [mkItem "p1" 5; mkItem "p2" 2] None None))).
  { cbn. apply NoDup_cons. split; [|apply NoDup_singleton].
    intros Hin. apply list_elem_of_singleton in Hin. discriminate. }
  specialize (H Hnd).
  destruct (fst (createOrder env0 1 ana _ _)) eqn:E; try (vm_compute in E; discriminate).
  destruct H as [H _].
  destruct (H (mkItem "p1" 5) ltac:(apply list_elem_of_here)) as (p & Hp & Hs & _).
  vm_compute in Hp. injection Hp as <-. exact Hs.
Defined.

(** X3. [createOrder] does not turn an empty cart down: with no items, on
    a database that answers and with a free order number drawn, it
    creates an order without lines and with subtotal 0, and leaves the
    stock as it was. The discount is what the discount block gives at a
    subtotal of 0, tax and total follow from it, and the use of the code
    is counted when the discount is positive. Without a discount code
    (none, or an empty one) discount and tax are 0, the total is 5000
    (the shipping fee) and the discount codes are as they were. *)
Theorem createOrder_empty_cart env fuel user notes_ code s n :
  fst (generateOrderNumber env fuel 0 (mkWorld s None)) = Ok n ->
  let out := createOrder env fuel user (mkBody [] notes_ code) (mkWorld s None) in
  exists o,
    fst out = Ok (created o) /\
    orderNumber o = n /\ items o = [] /\
    subtotal o = 0%float /\
    discount o = discountValue env code 0%float (discountCodes s) /\
    tax o = taxOf 0%float (discount o) /\
    total o = totalOf 0%float (discount o) 5000%float (tax o) /\
    orders (store (snd out)) = orders s ++ [o] /\
    discountCodes (store (snd out)) = countedUse code (discount o) (discountCodes s) /\
    (forall p, stockOf (store (snd out)) p = stockOf s p) /\
    (Js.truthy_string code = false ->
     discount o = 0%float /\ tax o = 0%float /\ total o = 5000%float /\
     discountCodes (store (snd out)) = discountCodes s).
Proof.
  intros Hn. cbv zeta.
  destruct (createOrder_up env fuel user (mkBody [] notes_ code) s (0%float, []) n
              eq_refl Hn)
    as (o & s' & -> & Hpl & Hnum & Hsub & Hit & Ho & Hc & Hst).
  cbn [fst snd store body_discountCode] in *.
  destruct Hpl as [_ _ _ Hd Hsh Htax Htot _ _ _].
  cbn [body_discountCode] in Hd.
  rewrite Hsub in Hd, Htax. rewrite Hsub, Hsh in Htot.
  assert (Hstock : forall p, stockOf s' p = stockOf s p).
  { intros p. rewrite Hst. unfold decrements. cbn.
    destruct (stockOf s p); cbn; [f_equal; lia | reflexivity]. }
  exists o. repeat (split; [first [reflexivity | assumption]|]).
  intros Hcode.
  assert (Hzero : discount o = 0%float).
  { rewrite Hd. unfold discountValue. destruct code as [c|]; [|reflexivity].
    now rewrite Hcode. }
  rewrite Hzero in Htax, Htot, Hc. rewrite Htax in Htot.
  split; [exact Hzero|]. split; [exact Htax|]. split; [exact Htot|].
  rewrite Hc. unfold countedUse. destruct code as [c|]; [|reflexivity].
  now rewrite Hcode.
Qed.

Lemma createOrder_empty_cart_witness :
  let w := mkWorld (mkStore {[ "p1" := cafe ]} {[ "BONO" := voucher ]} []) None in
  (exists o,
     fst (createOrder env0 1 ana (mkBody [] None None) w) = Ok (created o) /\
     items o = [] /\ total o = 5000%float) /\
  (exists o,
     fst (createOrder env0 1 ana (mkBody [] None (Some "BONO")) w) = Ok (created o) /\
     items o = [] /\ discount o = 5000%float /\ total o = (-950)%float /\
     (usedCount <$>
        discountCodes (store (snd (createOrder env0 1 ana (mkBody [] None (Some "BONO")) w)))
          !! "BONO") = Some 1).
Proof.
  cbv zeta. split.
  - destruct (createOrder_empty_cart env0 1 ana None None
                (mkStore {[ "p1" := cafe ]} {[ "BONO" := voucher ]} [])
                "CHE2611020007" eq_refl)
      as (o & Ho & _ & Hit & _ & _ & _ & _ & _ & _ & _ & Hnone).
    destruct (Hnone eq_refl) as (_ & _ & Htot & _).
    exists o. auto.
  - destruct (createOrder_empty_cart env0 1 ana None (Some "BONO")
                (mkStore {[ "p1" := cafe ]} {[ "BONO" := voucher ]} [])
                "CHE2611020007" eq_refl)
      as (o & Ho & _ & Hit & _ & Hd & Htax & Htot & _ & Hc & _).
    assert (Hd' : discount o = 5000%float) by (rewrite Hd; reflexivity).
    rewrite Hd' in Htax, Htot, Hc. rewrite Htax in Htot.
    exists o. split; [exact Ho|]. split; [exact Hit|]. split; [exact Hd'|].
    split; [rewrite Htot; reflexivity|].
    rewrite Hc. reflexivity.
Defined.

(** X7. [createOrder] does not look at the sign of a quantity. A line
    with a negative quantity of an active product whose stock is not
    negative passes the stock check; on a database that answers and with
    a free order number drawn the order is created, its line carries the
    negative quantity, and the stock of the product goes up. *)
Theorem createOrder_negative_quantity env fuel user notes_ s id p q n :
  products s !! id = Some p ->
  active p = true ->
  q < 0 ->
  0 <= stock p ->
  fst (generateOrderNumber env fuel 0 (mkWorld s None)) = Ok n ->
  let out := createOrder env fuel user (mkBody [mkItem id q] notes_ None) (mkWorld s None) in
  exists o,
    fst out = Ok (created o) /\
    items o = [mkOrderItem id q (price p) (price p * Js.number_of_Z q)%float] /\
    stockOf (store (snd out)) id = Some (stock p - q) /\
    stock p < stock p - q.
Proof.
  intros Hp Ha Hq Hs Hn. cbv zeta.
  assert (Hv : fst (validateItems (body_items (mkBody [mkItem id q] notes_ None))
                      (0%float, []) (mkWorld s None))
               = Ok ((0 + price p * Js.number_of_Z q)%float,
                     [mkOrderItem id q (price p) (price p * Js.number_of_Z q)%float])).
  { cbn [body_items validateItems]. unfold bind at 1.
    unfold validateItem, bind, prisma.product_findUnique, call.
    cbn [outage store fst snd item_productId item_quantity]. rewrite Hp, Ha. cbn [negb].
    replace (stock p <? q) with false by (symmetry; apply Z.ltb_ge; lia).
    reflexivity. }
  destruct (createOrder_up env fuel user _ s _ n Hv Hn)
    as (o & s' & -> & _ & _ & _ & Hit & _ & _ & Hst).
  cbn [fst snd store] in *.
  exists o. split; [reflexivity|]. split; [exact Hit|]. split; [|lia].
  rewrite Hst. unfold stockOf, decrements. rewrite Hp. cbn.
  rewrite decide_True by reflexivity. f_equal. lia.
Qed.

Lemma createOrder_negative_quantity_witness :
  stockOf (store (snd (createOrder env0 1 ana (mkBody [mkItem "p1" (-4)] None None)
                         (mkWorld (mkStore {[ "p1" := cafe ]} ∅ []) None)))) "p1"
  = Some 9.
Proof.
  assert (Hp : products (mkStore {[ "p1" := cafe ]} ∅ []) !! "p1" = Some cafe)
    by reflexivity.
  destruct (createOrder_negative_quantity env0 1 ana None
              (mkStore {[ "p1" := cafe ]} ∅ []) "p1" cafe (-4) "CHE2611020007"
              Hp eq_refl ltac:(lia) ltac:(cbn; lia) eq_refl)
    as (o & _ & _ & Hst & _).
  exact Hst.
Defined.

(** ** What a handler leaves alone *)

Section Keeps.
Context {X : Type} (obs : Store -> X).

Lemma keeps_ret {A} (a : A) : keeps obs (ret a).
Proof. intros w. reflexivity. Qed.

Lemma keeps_reply {A} (r : Response) : keeps obs (reply (A := A) r).
Proof. intros w. reflexivity. Qed.

Lemma keeps_bind {A B} (m : M A) (k : A -> M B) :
  keeps obs m -> (forall a, keeps obs (k a)) -> keeps obs (bind m k).
Proof.
  intros Hm Hk w. unfold bind. specialize (Hm w).
  destruct (m w) as [[a|x|e|] w1]; cbn [fst snd] in *; try exact Hm.
  rewrite <- Hm. apply Hk.
Qed.

Lemma keeps_call {A} (op : Store -> PrismaError + A * Store) :
  op_keeps obs op -> keeps obs (call op).
Proof.
  intros Hop w. unfold call.
  destruct (outage w) as [[|n]|]; [reflexivity | |];
    (destruct (op (store w)) as [e|[a s']] eqn:E; cbn [fst snd store];
     [reflexivity | exact (Hop _ _ _ E)]).
Qed.

Lemma keeps_forEach {A} (l : list A) (body : A -> M unit) :
  (forall x, keeps obs (body x)) -> keeps obs (forEach l body).
Proof.
  intros Hbody. induction l as [|x l IH]; cbn [forEach].
  - apply keeps_ret.
  - apply keeps_bind; [apply Hbody | intros _; exact IH].
Qed.

(** The calls that only read. *)
Lemma keeps_read {A} (f : Store -> A) : keeps obs (call (fun s => inr (f s, s))).
Proof. apply keeps_call. intros s a s' [= _ <-]. reflexivity. Qed.

Lemma keeps_validateItems items : forall acc, keeps obs (validateItems items acc).
Proof.
  induction items as [|item rest IH]; intros acc; cbn [validateItems].
  - apply keeps_ret.
  - apply keeps_bind; [|intros acc'; apply IH].
    unfold validateItem. apply keeps_bind; [apply keeps_read|].
    intros [p|]; [|apply keeps_reply].
    destruct (negb (active p)); [apply keeps_reply|].
    destruct (stock p <? item_quantity item); [apply keeps_reply | apply keeps_ret].
Qed.

Lemma keeps_computeDiscount env code subtotal_ :
  keeps obs (computeDiscount env code subtotal_).
Proof.
  unfold computeDiscount. destruct code as [c|]; [|apply keeps_ret].
  destruct (Js.truthy_string (Some c)); [|apply keeps_ret].
  apply keeps_bind; [apply keeps_read | intros ?; apply keeps_ret].
Qed.

Lemma keeps_generateOrderNumber env fuel : forall k, keeps obs (generateOrderNumber env fuel k).
Proof.
  induction fuel as [|fuel IH]; intros k; cbn [generateOrderNumber].
  - intros w. reflexivity.
  - apply keeps_bind; [apply keeps_read|].
    intros [o|]; [apply IH | apply keeps_ret].
Qed.

Lemma keeps_order_findUnique id owner : keeps obs (prisma.order_findUnique id owner).
Proof. apply keeps_call. intros s a s' [= _ <-]. reflexivity. Qed.

(** [createOrder] keeps what its three writes keep. *)
Lemma keeps_createOrder env fuel user body :
  (forall o, op_keeps obs (fun s =>
     inr (o, mkStore (products s) (discountCodes s) (orders s ++ [o])))) ->
  (forall id delta, keeps obs (prisma.product_update_stock id delta)) ->
  (forall c, keeps obs (prisma.discountCode_update_used c)) ->
  keeps obs (createOrder env fuel user body).
Proof.
  intros Hcreate Hstock Hused. unfold createOrder.
  apply keeps_bind; [apply keeps_validateItems|]. intros v.
  apply keeps_bind; [apply keeps_computeDiscount|]. intros d.
  apply keeps_bind; [apply keeps_generateOrderNumber|]. intros n.
  apply keeps_bind; [apply keeps_call, Hcreate|]. intros o.
  apply keeps_bind; [apply keeps_forEach; intros x; apply Hstock|]. intros _.
  apply keeps_bind; [|intros _; apply keeps_ret].
  unfold countDiscountUse. destruct (body_discountCode body) as [c|]; [|apply keeps_ret].
  destruct (Js.truthy_string (Some c) && (0 <? d)%float); [apply Hused | apply keeps_ret].
Qed.

(** [cancelOrder] keeps what its two writes keep. *)
Lemma keeps_cancelOrder user id reason :
  (forall change, keeps obs (prisma.order_update id change)) ->
  (forall p delta, keeps obs (prisma.product_update_stock p delta)) ->
  keeps obs (cancelOrder user id reason).
Proof.
  intros Hupdate Hstock. unfold cancelOrder. cbv zeta.
  apply keeps_bind; [apply keeps_order_findUnique|].
  intros [o|]; [|apply keeps_reply].
  destruct (bool_decide (deliveryStatus o = DELIVERED)
            || bool_decide (deliveryStatus o = CANCELLED)); [apply keeps_reply|].
  apply keeps_bind; [apply Hupdate|]. intros o'.
  apply keeps_bind; [apply keeps_forEach; intros x; apply Hstock|].
  intros _. apply keeps_ret.
Qed.

(** [updateDeliveryStatus] keeps what its one write keeps. *)
Lemma keeps_updateDeliveryStatus env id requested tracking estimated :
  (forall change, keeps obs (prisma.order_update id change)) ->
  keeps obs (updateDeliveryStatus env id requested tracking estimated).
Proof.
  intros Hupdate. unfold updateDeliveryStatus.
  apply keeps_bind; [apply keeps_order_findUnique|].
  intros [o|]; [|apply keeps_reply].
  apply keeps_bind; [apply Hupdate | intros ?; apply keeps_ret].
Qed.

End Keeps.

Lemma keeps_stock_update {X} (obs : Store -> X) id delta :
  (forall s p, products s !! id = Some p ->
     obs (mkStore (<[id := restock delta p]> (products s)) (discountCodes s) (orders s))
     = obs s) ->
  keeps obs (prisma.product_update_stock id delta).
Proof.
  intros H. apply keeps_call. intros s a s'.
  destruct (products s !! id) as [p|] eqn:E; [|discriminate].
  intros [= _ <-]. now apply H.
Qed.

Lemma keeps_order_update {X} (obs : Store -> X) id change :
  (forall s o, orders s !! id = Some o ->
     obs (mkStore (products s) (discountCodes s) (<[id := change o]> (orders s))) = obs s) ->
  keeps obs (prisma.order_update id change).
Proof.
  intros H. apply keeps_call. intros s a s'.
  destruct (orders s !! id) as [o|] eqn:E; [|discriminate].
  intros [= _ <-]. now apply H.
Qed.

Lemma keeps_used_update {X} (obs : Store -> X) c :
  (forall s d, discountCodes s !! c = Some d ->
     obs (mkStore (products s) (<[c := redeemed d]> (discountCodes s)) (orders s)) = obs s) ->
  keeps obs (prisma.discountCode_update_used c).
Proof.
  intros H. apply keeps_call. intros s a s'.
  destruct (discountCodes s !! c) as [d|] eqn:E; [|discriminate].
  intros [= _ <-]. now apply H.
Qed.

Lemma catalogue_restock s id delta p :
  products s !! id = Some p ->
  catalogue (mkStore (<[id := restock delta p]> (products s)) (discountCodes s) (orders s))
  = catalogue s.
Proof.
  intros Hp. unfold catalogue. cbn [products]. rewrite fmap_insert.
  apply insert_id. rewrite lookup_fmap, Hp. reflexivity.
Qed.

(** X10. No order handler adds or removes a product or changes a
    product's name, price or active flag: whatever the state of the
    database and however the handler ends, [createOrder], [cancelOrder]
    and [updateDeliveryStatus] leave these as they were (stock is all
    that they change in a product). *)
Theorem handlers_keep_catalogue env fuel user body id reason requested tracking estimated w :
  catalogue (store (snd (createOrder env fuel user body w))) = catalogue (store w) /\
  catalogue (store (snd (cancelOrder user id reason w))) = catalogue (store w) /\
  catalogue (store (snd (updateDeliveryStatus env id requested tracking estimated w)))
  = catalogue (store w).
Proof.
  assert (Hstock : forall p delta, keeps catalogue (prisma.product_update_stock p delta)).
  { intros p delta. apply keeps_stock_update. intros s q. apply catalogue_restock. }
  assert (Hupdate : forall i change, keeps catalogue (prisma.order_update i change)).
  { intros i change. apply keeps_order_update. reflexivity. }
  split; [|split].
  - apply keeps_createOrder; [| exact Hstock |].
    + intros o s a s' [= _ <-]. reflexivity.
    + intros c. apply keeps_used_update. reflexivity.
  - apply keeps_cancelOrder; [apply Hupdate | exact Hstock].
  - apply keeps_updateDeliveryStatus, Hupdate.
Qed.

(** X8. [cancelOrder] gives no discount use back and touches no other
    order: whatever the state of the database and however it ends, every
    discount code (its use counter with it) and every order under another
    identifier are as they were, and no order is added or removed. *)
Theorem cancelOrder_keeps_codes_and_others user id reason w :
  let s' := store (snd (cancelOrder user id reason w)) in
  discountCodes s' = discountCodes (store w) /\
  length (orders s') = length (orders (store w)) /\
  forall other, other <> id -> orders s' !! other = orders (store w) !! other.
Proof.
  cbv zeta. split; [|split].
  - apply (keeps_cancelOrder discountCodes).
    + intros change. apply keeps_order_update. reflexivity.
    + intros p delta. apply keeps_stock_update. reflexivity.
  - apply (keeps_cancelOrder (fun s => length (orders s))).
    + intros change. apply keeps_order_update. intros s o _. cbn. apply length_insert.
    + intros p delta. apply keeps_stock_update. reflexivity.
  - intros other Hne. apply (keeps_cancelOrder (fun s => orders s !! other)).
    + intros change. apply keeps_order_update. intros s o _. cbn.
      apply list_lookup_insert_ne. congruence.
    + intros p delta. apply keeps_stock_update. reflexivity.
Qed.

(** X9. [updateDeliveryStatus] changes nothing but the delivery fields of
    the one order: whatever the state of the database and however it
    ends, products, discount codes and the orders under other identifiers
    are as they were, and the order itself keeps its number, owner,
    items, amounts, notes and discount code; it is left as it was or
    carries the requested status; a request without a tracking number,
    or with an empty one, keeps the tracking number stored, and a request
    for a status other than [DELIVERED] keeps the delivered timestamp. *)
Theorem updateDeliveryStatus_changes_delivery_only env id requested tracking estimated w :
  let s' := store (snd (updateDeliveryStatus env id requested tracking estimated w)) in
  products s' = products (store w) /\
  discountCodes s' = discountCodes (store w) /\
  (forall other, other <> id -> orders s' !! other = orders (store w) !! other) /\
  match orders (store w) !! id with
  | Some o =>
      exists o',
        orders s' !! id = Some o' /\
        orderNumber o' = orderNumber o /\ userId o' = userId o /\ items o' = items o /\
        subtotal o' = subtotal o /\ discount o' = discount o /\
        shipping o' = shipping o /\ tax o' = tax o /\ total o' = total o /\
        notes o' = notes o /\ discountCode o' = discountCode o /\
        (o' = o \/ deliveryStatus o' = requested) /\
        (Js.truthy_string tracking = false -> trackingNumber o' = trackingNumber o) /\
        (requested <> DELIVERED -> deliveredAt o' = deliveredAt o)
  | None => orders s' !! id = None
  end.
Proof.
  cbv zeta. split; [|split; [|split]].
  - apply (keeps_updateDeliveryStatus products).
    intros change. apply keeps_order_update. reflexivity.
  - apply (keeps_updateDeliveryStatus discountCodes).
    intros change. apply keeps_order_update. reflexivity.
  - intros other Hne. apply (keeps_updateDeliveryStatus (fun s => orders s !! other)).
    intros change. apply keeps_order_update. intros s o _. cbn.
    apply list_lookup_insert_ne. congruence.
  - destruct (orders (store w) !! id) as [o|] eqn:Ho.
    + pose (Q := fun w' : World =>
        exists o',
          orders (store w') !! id = Some o' /\
          orderNumber o' = orderNumber o /\ userId o' = userId o /\
          items o' = items o /\
          subtotal o' = subtotal o /\ discount o' = discount o /\
          shipping o' = shipping o /\ tax o' = tax o /\ total o' = total o /\
          notes o' = notes o /\ discountCode o' = discountCode o /\
          (o' = o \/ deliveryStatus o' = requested) /\
          (Js.truthy_string tracking = false -> trackingNumber o' = trackingNumber o) /\
          (requested <> DELIVERED -> deliveredAt o' = deliveredAt o)).
      assert (Hsame : Q w).
      { exists o. split; [exact Ho|]. repeat (split; [reflexivity|]).
        split; [now left|]. split; reflexivity. }
      change (post (updateDeliveryStatus env id requested tracking estimated) w
                (fun _ w' => Q w')).
      unfold updateDeliveryStatus. apply post_bind, post_call; [intros _; exact Hsame|].
      intros _. cbn beta iota. rewrite Ho.
      apply post_bind, post_call; [intros _; exact Hsame|].
      intros _. cbn [store]. rewrite Ho. apply post_ret. unfold Q. cbn [store orders].
      eexists. split; [apply list_lookup_insert_eq; eapply lookup_lt_Some, Ho|].
      cbn. repeat (split; [reflexivity|]). split; [now right|].
      split; [now intros ->|].
      intros Hreq. destruct (decide (requested = DELIVERED)); [contradiction | reflexivity].
    + change (post (updateDeliveryStatus env id requested tracking estimated) w
                (fun _ w' => orders (store w') !! id = None)).
      unfold updateDeliveryStatus. apply post_bind, post_call; [intros _; exact Ho|].
      intros _. cbn beta iota. rewrite Ho. apply post_reply. exact Ho.
Qed.

(** ** Cancelling on a database that answers *)

Lemma cancelOrder_up user id reason s o :
  orders s !! id = Some o ->
  role user = "ADMIN" \/ userId o = uid user ->
  deliveryStatus o <> DELIVERED ->
  deliveryStatus o <> CANCELLED ->
  Forall (fun item => known s (productId item)) (items o) ->
  exists s',
    cancelOrder user id reason (mkWorld s None)
    = (Ok (mkResponse 200 cancelled (Some (cancelUpdate o reason o))), mkWorld s' None) /\
    orders s' = <[id := cancelUpdate o reason o]> (orders s) /\
    discountCodes s' = discountCodes s /\
    forall p, stockOf s' p = (fun z => z + reserved p (items o)) <$> stockOf s p.
Proof.
  intros Ho Hmay Hd Hc Hknown.
  pose (w1 := mkWorld (mkStore (products s) (discountCodes s)
                         (<[id := cancelUpdate o reason o]> (orders s))) None).
  assert (Hrun : cancelOrder user id reason (mkWorld s None)
            = bind (restoreStock (items o))
                (fun _ => ret (mkResponse 200 cancelled (Some (cancelUpdate o reason o))))
                w1).
  { unfold cancelOrder. unfold bind at 1.
    rewrite (cancelOrder_sees user id s o Ho Hmay).
    rewrite !bool_decide_eq_false_2 by assumption. cbn [orb].
    unfold bind at 1. unfold prisma.order_update, call. cbn. rewrite Ho. reflexivity. }
  rewrite Hrun. clear Hrun.
  pose proof (forEach_stock_post productId quantity (items o) w1) as Hloop.
  unfold post in Hloop. fold (restoreStock (items o)) in Hloop.
  unfold bind. destruct (restoreStock (items o) w1) as [r w2].
  cbn [fst snd] in Hloop. destruct Hloop as (Hd2 & Ho2 & Hup2 & Hr2).
  specialize (Hup2 eq_refl).
  destruct r as [[]|x|e|]; [| contradiction | | contradiction].
  - exists (store w2). cbn [ret]. rewrite (up_world w2 Hup2) at 1.
    repeat (split; [first [reflexivity | assumption]|]). exact Hr2.
  - exfalso. destruct Hr2 as [[_ Hr2]|[_ Hr2]]; [now apply Hr2|].
    apply Hr2. exact Hknown.
Qed.

Lemma known_stockOf s p : known s p <-> is_Some (stockOf s p).
Proof. unfold known, stockOf. now rewrite fmap_is_Some. Qed.

Lemma known_moved s s' (f : string -> Z) :
  (forall p, stockOf s' p = (fun z => z + f p) <$> stockOf s p) ->
  forall p, known s p -> known s' p.
Proof.
  intros H p. rewrite !known_stockOf, H. now rewrite fmap_is_Some.
Qed.

(** The lines made of the request hold what the request decrements. *)
Lemma reserved_of_lines s p items_ lines :
  Forall2 (lineFor s) items_ lines ->
  reserved p lines = - moved item_productId (fun item => - item_quantity item) p items_.
Proof.
  unfold reserved. induction 1 as [|item l items_ lines (Hid & Hq & _) _ IH]; cbn [moved].
  - reflexivity.
  - rewrite IH, Hid, Hq. destruct (decide (item_productId item = p)); lia.
Qed.

(** X5. Creating an order and then cancelling it puts the stock back: on
    a database that answers, after [createOrder] has created an order and
    its buyer has cancelled it (the order's identifier being the number
    of orders there were before), the cancellation is accepted and the
    stock of every product is what it was before the order, whatever the
    lines, repeated products included. *)
Theorem createOrder_then_cancelOrder env fuel user body reason s o w1 :
  createOrder env fuel user body (mkWorld s None) = (Ok (created o), w1) ->
  let out := cancelOrder user (length (orders s)) reason w1 in
  (exists o', fst out = Ok (mkResponse 200 cancelled (Some o')) /\
              deliveryStatus o' = CANCELLED /\ orderNumber o' = orderNumber o) /\
  forall p, stockOf (store (snd out)) p = stockOf s p.
Proof.
  intros Hrun. cbv zeta.
  pose proof (createOrder_post env fuel user body (mkWorld s None)) as H.
  pose proof (validateItems_value (body_items body) (0%float, []) (mkWorld s None)) as Hval.
  unfold post in H, Hval. rewrite Hrun in H. cbv zeta in H. cbn [fst snd store] in H.
  destruct H as (Hup & o' & v & w2 & [= <-] & Hpl & Hv & _ & Hit & _ & _ & Ho & _ & Hst).
  rewrite Hv in Hval. destruct Hval as (lines & Hlines & Hsnd & _).
  cbn [snd app store] in Hsnd, Hlines. rewrite Hsnd in Hit.
  specialize (Hup eq_refl). rewrite (up_world w1 Hup).
  assert (Hknown : Forall (fun l => known (store w1) (productId l)) (items o)).
  { rewrite Hit. clear -Hlines Hst.
    induction Hlines as [|item l items_ lines (Hid & _ & p & Hp & _) _ IH]; constructor;
      [|exact IH].
    apply (known_moved s _ _ Hst). rewrite Hid. unfold known. eauto. }
  destruct (cancelOrder_up user (length (orders s)) reason (store w1) o) as
    (s2 & -> & _ & _ & Hst2).
  - rewrite Ho. now apply list_lookup_middle.
  - right. apply (placed_user _ _ _ _ _ Hpl).
  - rewrite (placed_status _ _ _ _ _ Hpl). discriminate.
  - rewrite (placed_status _ _ _ _ _ Hpl). discriminate.
  - exact Hknown.
  - cbn [fst snd store]. split; [eexists; repeat split; reflexivity|].
    intros p. rewrite Hst2, Hst, Hit, (reserved_of_lines s p _ _ Hlines).
    unfold decrements. destruct (stockOf s p); cbn; [f_equal; lia | reflexivity].
Qed.

Lemma createOrder_then_cancelOrder_witness :
  let body := mkBody [mkItem "p1" 2; mkItem "p1" 1] None None in
  let s := mkStore {[ "p1" := cafe ]} ∅ [] in
  let w1 := snd (createOrder env0 1 ana body (mkWorld s None)) in
  stockOf (store w1) "p1" = Some 2 /\
  stockOf (store (snd (cancelOrder ana 0 None w1))) "p1" = Some 5.
Proof.
  cbv zeta. split; [reflexivity|].
  pose proof (createOrder_then_cancelOrder env0 1 ana
                (mkBody [mkItem "p1" 2; mkItem "p1" 1] None None) None
                (mkStore {[ "p1" := cafe ]} ∅ [])) as H.
  pose (out1 := createOrder env0 1 ana (mkBody [mkItem "p1" 2; mkItem "p1" 1] None None)
                  (mkWorld (mkStore {[ "p1" := cafe ]} ∅ []) None)).
  pose (o1 := match fst out1 with
              | Ok (mkResponse _ _ (Some o)) => o
              | _ => order_of "" PENDING []
              end).
  assert (Hrun : out1 = (Ok (created o1), snd out1)) by (vm_compute; reflexivity).
  destruct (H o1 (snd out1) Hrun) as [_ Hback].
  etransitivity; [exact (Hback "p1") | reflexivity].
Defined.

Lemma updateDeliveryStatus_up env id requested tracking estimated s o :
  orders s !! id = Some o ->
  updateDeliveryStatus env id requested tracking estimated (mkWorld s None)
  = (Ok (mkResponse 200 deliveryUpdated
           (Some (deliveryUpdate env requested tracking estimated o))),
     mkWorld (mkStore (products s) (discountCodes s)
                (<[id := deliveryUpdate env requested tracking estimated o]> (orders s)))
       None).
Proof.
  intros Ho. unfold updateDeliveryStatus, bind, prisma.order_findUnique,
    prisma.order_update, call. cbn. rewrite Ho. cbn. rewrite Ho. reflexivity.
Qed.

(** X6. A cancelled order can be cancelled again once its delivery status
    has been set back. On a database that answers: after [cancelOrder]
    has cancelled an order, [updateDeliveryStatus] moves it to any status
    other than [DELIVERED] and [CANCELLED], and then [cancelOrder] is
    accepted a second time and adds the quantities of the order to the
    stock a second time, so that every product ends with its stock
    raised by twice what the order holds of it. *)
Theorem cancelOrder_again_after_update env user id reason reason' requested
    tracking estimated s o :
  orders s !! id = Some o ->
  role user = "ADMIN" \/ userId o = uid user ->
  deliveryStatus o <> DELIVERED ->
  deliveryStatus o <> CANCELLED ->
  Forall (fun item => known s (productId item)) (items o) ->
  requested <> DELIVERED ->
  requested <> CANCELLED ->
  let w1 := snd (cancelOrder user id reason (mkWorld s None)) in
  let w2 := snd (updateDeliveryStatus env id requested tracking estimated w1) in
  let out := cancelOrder user id reason' w2 in
  (exists o', fst out = Ok (mkResponse 200 cancelled (Some o'))) /\
  forall p, stockOf (store (snd out)) p
            = (fun z => z + 2 * reserved p (items o)) <$> stockOf s p.
Proof.
  intros Ho Hmay Hd Hc Hknown Hrd Hrc. cbv zeta.
  destruct (cancelOrder_up user id reason s o Ho Hmay Hd Hc Hknown)
    as (s1 & -> & Ho1 & _ & Hst1).
  cbn [snd].
  assert (Hlt : (id < length (orders s))%nat) by (eapply lookup_lt_Some, Ho).
  assert (Hat1 : orders s1 !! id = Some (cancelUpdate o reason o)).
  { rewrite Ho1. now apply list_lookup_insert_eq. }
  rewrite (updateDeliveryStatus_up env id requested tracking estimated s1 _ Hat1).
  cbn [snd].
  set (o2 := deliveryUpdate env requested tracking estimated (cancelUpdate o reason o)).
  set (s2 := mkStore (products s1) (discountCodes s1) (<[id := o2]> (orders s1))).
  destruct (cancelOrder_up user id reason' s2 o2) as (s3 & -> & _ & _ & Hst3).
  - cbn. apply list_lookup_insert_eq. rewrite Ho1, length_insert. exact Hlt.
  - exact Hmay.
  - exact Hrd.
  - exact Hrc.
  - cbn [o2 deliveryUpdate cancelUpdate items].
    eapply Forall_impl; [exact Hknown|]. intros l Hl.
    apply (known_moved s _ _ Hst1). exact Hl.
  - cbn [fst snd store]. split; [eexists; reflexivity|].
    intros p. rewrite Hst3. unfold stockOf at 1. cbn [s2 products].
    fold (stockOf s1 p). rewrite Hst1. cbn [o2 deliveryUpdate cancelUpdate items].
    destruct (stockOf s p); cbn; [f_equal; lia | reflexivity].
Qed.

Lemma cancelOrder_again_after_update_witness :
  let w1 := snd (cancelOrder ana 0 None (mkWorld (shop SHIPPED) None)) in
  let w2 := snd (updateDeliveryStatus env0 0 PENDING None None w1) in
  stockOf (shop SHIPPED) "p1" = Some 5 /\
  stockOf (store (snd (cancelOrder ana 0 None w2))) "p1" = Some 9.
Proof.
  cbv zeta. split; [reflexivity|].
  assert (Hknown : Forall (fun item => known (shop SHIPPED) (productId item))
                     [mkOrderItem "p1" 2 35000%float 70000%float]).
  { constructor; [|constructor]. exists cafe. reflexivity. }
  destruct (cancelOrder_again_after_update env0 ana 0 None None PENDING None None
              (shop SHIPPED) _ eq_refl (or_intror eq_refl)
              ltac:(discriminate) ltac:(discriminate) Hknown
              ltac:(discriminate) ltac:(discriminate)) as [_ H].
  etransitivity; [exact (H "p1") | reflexivity].
Defined.

(** * getOrders and getOrderById *)

Lemma getOrders_up user q s :
  getOrders user q (mkWorld s None)
  = (Ok (mkOrdersResponse 200
           (take (Pos.to_nat (query_limit q))
              (drop ((Pos.to_nat (query_page q) - 1) * Pos.to_nat (query_limit q))
                 (selected user q s)))
           (mkPagination (Pos.to_nat (query_page q)) (Pos.to_nat (query_limit q))
              (length (List.filter (ordersWhere user q) (orders s)))
              (pagesOf (length (List.filter (ordersWhere user q) (orders s)))
                 (Pos.to_nat (query_limit q))))),
     mkWorld s None).
Proof. reflexivity. Qed.

Lemma ordersWhere_owner user q o :
  role user <> "ADMIN" -> ordersWhere user q o = true -> userId o = uid user.
Proof.
  intros Hrole. unfold ordersWhere, whereUserId.
  destruct (String.eqb_spec (role user) "ADMIN") as [E|_]; [contradiction|].
  cbn [negb]. intros H. apply andb_prop in H as [H _]. apply andb_prop in H as [H _].
  now apply String.eqb_eq.
Qed.

(** X11. [getOrders] shows a caller who is not an administrator only
    orders of their own, whatever [userId] and other filters the query
    carries and however the rows are sorted and paged; and it writes
    nothing, whatever the state of the database. *)
Theorem getOrders_own_orders_only user q w :
  role user <> "ADMIN" ->
  (forall l, query_orderBy q l ≡ₚ l) ->
  let out := getOrders user q w in
  store (snd out) = store w /\
  match fst out with
  | Ok r => Forall (fun o => userId o = uid user /\ o ∈ orders (store w)) (list_orders r)
  | _ => True
  end.
Proof.
  intros Hrole Hperm. cbv zeta. split.
  - apply (keeps_bind (fun s => s)); [apply keeps_read|].
    intros l. apply keeps_bind; [apply keeps_read | intros ?; apply keeps_ret].
  - change (post (getOrders user q) w
              (fun r _ =>
                 match r with
                 | Ok r => Forall (fun o => userId o = uid user /\ o ∈ orders (store w))
                             (list_orders r)
                 | _ => True
                 end)).
    unfold getOrders. cbv zeta. apply post_bind, post_call; [intros _; exact I|].
    intros _. apply post_bind, post_call; [intros _; exact I|].
    intros _. apply post_ret. cbn [list_orders store].
    apply Forall_take, Forall_drop. rewrite Hperm.
    apply Forall_forall. intros o Ho. apply list_elem_of_In, filter_In in Ho as [Hin Hw].
    split; [now apply (ordersWhere_owner user q) | now apply list_elem_of_In].
Qed.

Lemma getOrders_own_orders_only_witness :
  let out := getOrders ana (mkQuery 1 10 (Some "luis") None everyone byCreation)
               (mkWorld three_orders None) in
  (list_orders <$> asyncListing (fst out))
  = Some [order_of "ana" PENDING []; order_of "ana" DELIVERED []] /\
  match fst out with
  | Ok r => Forall (fun o => userId o = "ana" /\ o ∈ orders three_orders) (list_orders r)
  | _ => True
  end.
Proof.
  cbv zeta. split; [reflexivity|].
  apply (getOrders_own_orders_only ana
           (mkQuery 1 10 (Some "luis") None everyone byCreation)
           (mkWorld three_orders None)); [discriminate|].
  intros l. reflexivity.
Defined.

Lemma pagesOf_enough t L : (0 < L)%nat -> (t <= pagesOf t L * L)%nat.
Proof.
  intros HL. unfold pagesOf.
  pose proof (Nat.mul_succ_div_gt (t + L - 1) L ltac:(lia)). nia.
Qed.

Lemma pagesOf_least t L n : (0 < L)%nat -> (t <= n * L)%nat -> (pagesOf t L <= n)%nat.
Proof.
  intros HL Hn. unfold pagesOf.
  apply Nat.lt_succ_r, Nat.Div0.div_lt_upper_bound. nia.
Qed.

(** X12. The page count and the pages of [getOrders], on a database that
    answers: [total] is the number of orders that the filters keep,
    whatever the page asked for; [pages] is the least number of pages of
    [limit] rows that hold them all, and 0 when there is none; page [k]
    carries rows [(k-1)*limit] up to [k*limit] of the selection, at most
    [limit] of them, and no row at all when [k] is beyond [pages]. *)
Theorem getOrders_pagination user q s :
  (forall l, query_orderBy q l ≡ₚ l) ->
  let L := Pos.to_nat (query_limit q) in
  let rows := selected user q s in
  let matching := List.filter (ordersWhere user q) (orders s) in
  exists r,
    getOrders user q (mkWorld s None) = (Ok r, mkWorld s None) /\
    pg_total (list_pagination r) = length matching /\
    length rows = length matching /\
    pg_pages (list_pagination r) = pagesOf (length matching) L /\
    (length matching <= pg_pages (list_pagination r) * L)%nat /\
    (forall n, (length matching <= n * L)%nat -> (pg_pages (list_pagination r) <= n)%nat) /\
    list_orders r = take L (drop ((Pos.to_nat (query_page q) - 1) * L) rows) /\
    (length (list_orders r) <= L)%nat /\
    ((pg_pages (list_pagination r) < Pos.to_nat (query_page q))%nat -> list_orders r = []).
Proof.
  intros Hperm. cbv zeta. eexists. split; [apply getOrders_up|].
  cbn [list_pagination list_orders pg_total pg_pages].
  assert (HL : (0 < Pos.to_nat (query_limit q))%nat) by lia.
  assert (Hlen : length (selected user q s)
                 = length (List.filter (ordersWhere user q) (orders s))).
  { unfold selected. now rewrite Hperm. }
  split; [reflexivity|]. split; [exact Hlen|]. split; [reflexivity|].
  split; [now apply pagesOf_enough|].
  split; [intros n; now apply pagesOf_least|].
  split; [reflexivity|].
  split; [rewrite length_take; lia|].
  intros Hbeyond. rewrite drop_ge; [apply take_nil|].
  rewrite Hlen.
  pose proof (pagesOf_enough (length (List.filter (ordersWhere user q) (orders s)))
                (Pos.to_nat (query_limit q)) HL). nia.
Qed.

Lemma getOrders_pagination_witness :
  exists r,
    getOrders ana (mkQuery 2 1 None None everyone byCreation) (mkWorld three_orders None)
    = (Ok r, mkWorld three_orders None) /\
    pg_total (list_pagination r) = 2%nat /\
    pg_pages (list_pagination r) = 2%nat /\
    list_orders r = [order_of "ana" DELIVERED []].
Proof.
  destruct (getOrders_pagination ana (mkQuery 2 1 None None everyone byCreation)
              three_orders (fun l => reflexivity l))
    as (r & Hrun & Htotal & _ & Hpages & _ & _ & Hrows & _).
  exists r. split; [exact Hrun|].
  split; [rewrite Htotal; reflexivity|].
  split; [rewrite Hpages; reflexivity|].
  rewrite Hrows. reflexivity.
Defined.

(** Cutting a list into [n] slices of [L] elements loses and repeats
    nothing, when [n] slices are enough. *)
Lemma slices_concat {A} (L : nat) : forall (n : nat) (l : list A),
  (length l <= n * L)%nat ->
  concat ((fun k => take L (drop (k * L) l)) <$> seq 0 n) = l.
Proof.
  induction n as [|n IH]; intros l Hl.
  - destruct l; [reflexivity | cbn in Hl; lia].
  - change (seq 0 (S n)) with (0%nat :: seq 1 n). rewrite fmap_cons.
    cbn [concat]. rewrite Nat.mul_0_l, drop_0.
    transitivity (take L l ++ drop L l); [|apply take_drop]. f_equal.
    etransitivity; [|apply (IH (drop L l)); rewrite length_drop; lia].
    rewrite <- seq_shift. change (map S (seq 0 n)) with (S <$> seq 0 n).
    rewrite <- list_fmap_compose. f_equal. apply list_fmap_ext. intros _ k _.
    cbn [compose]. rewrite drop_drop. reflexivity.
Qed.

(** X13. The pages of [getOrders] make up the selection: on a database
    that answers, the rows of pages 1 to [pages], one after the other,
    are exactly the orders that the filters keep, in the order asked for,
    each once. *)
Theorem getOrders_pages_cover user q s :
  (forall l, query_orderBy q l ≡ₚ l) ->
  let w := mkWorld s None in
  let n := pagesOf (length (List.filter (ordersWhere user q) (orders s)))
             (Pos.to_nat (query_limit q)) in
  concat ((fun k => pageOrders user q w (Pos.of_nat k)) <$> seq 1 n)
  = selected user q s.
Proof.
  intros Hperm. cbv zeta.
  set (L := Pos.to_nat (query_limit q)).
  set (n := pagesOf _ L).
  assert (HL : (0 < L)%nat) by (unfold L; lia).
  rewrite <- (slices_concat L n (selected user q s)).
  - rewrite <- seq_shift. change (map S (seq 0 n)) with (S <$> seq 0 n).
    rewrite <- list_fmap_compose. f_equal. apply list_fmap_ext. intros _ k _.
    cbn [compose]. unfold pageOrders. rewrite getOrders_up. cbn [fst list_orders].
    cbn [withPage query_page query_limit]. fold L.
    rewrite Nat2Pos.id by lia.
    replace (S k - 1)%nat with k by lia. reflexivity.
  - unfold selected. rewrite Hperm. unfold n. now apply pagesOf_enough.
Qed.

Lemma getOrders_pages_cover_witness :
  pageOrders luis_admin (mkQuery 1 2 None None everyone byCreation)
    (mkWorld three_orders None) 1
  ++ pageOrders luis_admin (mkQuery 1 2 None None everyone byCreation)
       (mkWorld three_orders None) 2
  = orders three_orders.
Proof.
  pose proof (getOrders_pages_cover luis_admin
                (mkQuery 1 2 None None everyone byCreation) three_orders
                (fun l => reflexivity l)) as H.
  cbv zeta in H. etransitivity; [|exact H]. reflexivity.
Defined.

(** ** Who sees an order *)

(** The [where] clause that [getOrderById] and [cancelOrder] build, run
    on a database that answers the call. *)
Lemma owner_lookup user id w :
  outage w <> Some O ->
  prisma.order_findUnique id
    (if negb (String.eqb (role user) "ADMIN") then Some (uid user) else None) w
  = (Ok (match orders (store w) !! id with
         | Some o =>
             if String.eqb (role user) "ADMIN" || String.eqb (userId o) (uid user)
             then Some o else None
         | None => None
         end),
     mkWorld (store w) (Nat.pred <$> outage w)).
Proof.
  intros Hup. unfold prisma.order_findUnique, call.
  destruct (outage w) as [[|n]|]; [contradiction| |];
    destruct (orders (store w) !! id) as [o|]; try reflexivity;
    destruct (String.eqb (role user) "ADMIN"); reflexivity.
Qed.

Lemma bind_ok {A B} (m : M A) (k : A -> M B) w a w' :
  m w = (Ok a, w') -> bind m k w = k a w'.
Proof. unfold bind. now intros ->. Qed.

Lemma call_no_reply {A} (op : Store -> PrismaError + A * Store) w x :
  fst (call op w) <> Replied x.
Proof.
  unfold call. destruct (outage w) as [[|n]|]; [discriminate| |];
    destruct (op (store w)) as [e|[a s']]; discriminate.
Qed.

Lemma forEach_no_reply {A} (op : A -> Store -> PrismaError + unit * Store) l :
  forall w x, fst (forEach l (fun a => call (op a)) w) <> Replied x.
Proof.
  induction l as [|a l IH]; intros w x; cbn [forEach]; [discriminate|].
  unfold bind. pose proof (call_no_reply (op a) w) as Hc.
  destruct (call (op a) w) as [[[]|r|e|] w']; cbn [fst] in *;
    [apply IH | destruct (Hc r eq_refl) | discriminate | discriminate].
Qed.

(** X14. The reply of [getOrderById] when the database answers its one
    call: 200 with the stored order when the order exists and the caller
    has the role "ADMIN" or owns it; in every other case 404 "Orden no
    encontrada", the same for an order of somebody else as for an
    identifier that no order has. Nothing is written. *)
Theorem getOrderById_owner_or_ADMIN user id w :
  outage w <> Some O ->
  let out := getOrderById user id w in
  store (snd out) = store w /\
  ((exists o, orders (store w) !! id = Some o /\
              (role user = "ADMIN" \/ userId o = uid user) /\
              fst out = Ok (mkResponse 200 orderObtained (Some o))) \/
   ((forall o, orders (store w) !! id = Some o ->
               role user <> "ADMIN" /\ userId o <> uid user) /\
    fst out = Replied orderNotFound)).
Proof.
  intros Hup. cbv zeta. unfold getOrderById, bind.
  rewrite (owner_lookup user id w Hup).
  destruct (orders (store w) !! id) as [o|].
  - destruct (String.eqb_spec (role user) "ADMIN") as [Hr|Hr]; cbn [orb].
    + split; [reflexivity|]. left. exists o. auto.
    + destruct (String.eqb_spec (userId o) (uid user)) as [Ho|Ho].
      * split; [reflexivity|]. left. exists o. auto.
      * split; [reflexivity|]. right. split; [|reflexivity].
        intros o' [= <-]. auto.
  - split; [reflexivity|]. right. split; [|reflexivity]. intros o' [=].
Qed.

Lemma getOrderById_owner_or_ADMIN_witness :
  let w := mkWorld three_orders (Some 1%nat) in
  (exists o, orders three_orders !! 1%nat = Some o /\
             fst (getOrderById luis_admin 1 w)
             = Ok (mkResponse 200 orderObtained (Some o))) /\
  fst (getOrderById ana 1 w) = Replied orderNotFound /\
  fst (getOrderById ana 7 w) = Replied orderNotFound.
Proof.
  cbv zeta.
  destruct (getOrderById_owner_or_ADMIN luis_admin 1 (mkWorld three_orders (Some 1%nat))
              ltac:(discriminate)) as [_ [(o & Ho & _ & Hr) | [Hno _]]].
  - split; [exists o; split; [exact Ho | exact Hr]|]. split; reflexivity.
  - destruct (Hno _ eq_refl) as [Hrole _]. exfalso. apply Hrole. reflexivity.
Defined.

(** X15. [cancelOrder] and [getOrderById] hide the same orders: when the
    database answers the lookup, [cancelOrder] replies 404 "Orden no
    encontrada" exactly when [getOrderById] does, whatever happens to the
    later calls of [cancelOrder]. *)
Theorem cancelOrder_hides_like_getOrderById user id reason w :
  outage w <> Some O ->
  fst (cancelOrder user id reason w) = Replied orderNotFound <->
  fst (getOrderById user id w) = Replied orderNotFound.
Proof.
  intros Hup. unfold cancelOrder, getOrderById.
  rewrite !(bind_ok _ _ _ _ _ (owner_lookup user id w Hup)).
  destruct (match orders (store w) !! id with
            | Some o => if String.eqb (role user) "ADMIN" || String.eqb (userId o) (uid user)
                        then Some o else None
            | None => None
            end) as [o|]; [|split; reflexivity].
  split; [|discriminate]. intros H. exfalso. revert H.
  destruct (bool_decide (deliveryStatus o = DELIVERED)
            || bool_decide (deliveryStatus o = CANCELLED)); [discriminate|].
  unfold bind.
  pose proof (call_no_reply
    (fun s => match orders s !! id with
              | None => inl P2025
              | Some o0 =>
                  inr (cancelUpdate o reason o0,
                       mkStore (products s) (discountCodes s)
                         (<[id := cancelUpdate o reason o0]> (orders s)))
              end) (mkWorld (store w) (Nat.pred <$> outage w))) as Hc.
  unfold prisma.order_update.
  destruct (call _ _) as [[u|r|e|] w1]; cbn [fst] in *;
    [| destruct (Hc r eq_refl) | discriminate | discriminate].
  pose proof (forEach_no_reply
    (fun item s => match products s !! productId item with
                   | None => inl P2025
                   | Some p =>
                       inr (tt, mkStore (<[productId item := restock (quantity item) p]>
                                           (products s)) (discountCodes s) (orders s))
                   end) (items o) w1) as Hf.
  unfold restoreStock, prisma.product_update_stock.
  destruct (forEach _ _ w1) as [[[]|r|e|] w2]; cbn [fst] in *;
    [discriminate | destruct (Hf r eq_refl) | discriminate | discriminate].
Qed.

Lemma cancelOrder_hides_like_getOrderById_witness :
  fst (cancelOrder ana 1 None (mkWorld three_orders None)) = Replied orderNotFound.
Proof.
  apply (cancelOrder_hides_like_getOrderById ana 1 None (mkWorld three_orders None));
    [discriminate | reflexivity].
Defined.

(** ** The delivery-status route and the roles *)

(** X16. [requireAdmin] lets a caller through to [updateDeliveryStatus]
    exactly when the role is "admin"; [getOrders], [getOrderById] and
    [cancelOrder] lift the owner filter exactly when it is "ADMIN". So
    for an order of somebody else, on a database that answers the first
    call: a caller whose role is not "admin" gets 403 from the
    delivery-status route and nothing is touched; a caller whose role is
    "admin" reaches [updateDeliveryStatus], which on a database that
    answers stores the requested status in that order with 200, while
    [getOrderById] and [cancelOrder] answer the same caller 404 for it
    and [getOrders] lists the caller's own orders only. *)
Theorem delivery_route_admin_is_no_order_ADMIN
    env user id requested tracking estimated w o :
  outage w <> Some O ->
  orders (store w) !! id = Some o ->
  userId o <> uid user ->
  let out := patchDeliveryStatus env user id requested tracking estimated w in
  (role user <> "admin" -> out = (Replied adminRequired, w)) /\
  (role user = "admin" ->
     out = updateDeliveryStatus env id requested tracking estimated w /\
     (outage w = None ->
        (status <$> asyncHandler (fst out)) = Some 200 /\
        (deliveryStatus <$> orders (store (snd out)) !! id) = Some requested) /\
     fst (getOrderById user id w) = Replied orderNotFound /\
     (forall reason, fst (cancelOrder user id reason w) = Replied orderNotFound) /\
     (forall q, whereUserId user q = Some (uid user))).
Proof.
  intros Hup Ho Hother. cbv zeta. unfold patchDeliveryStatus, requireAdmin. split.
  - intros Hrole. destruct (String.eqb_spec (role user) "admin") as [E|E];
      [contradiction | reflexivity].
  - intros Hrole. rewrite Hrole. cbn [String.eqb Ascii.eqb Bool.eqb negb andb].
    split; [reflexivity|].
    assert (Hhidden :
      prisma.order_findUnique id
        (if negb (String.eqb (role user) "ADMIN") then Some (uid user) else None) w
      = (Ok None, mkWorld (store w) (Nat.pred <$> outage w))).
    { rewrite (owner_lookup user id w Hup), Ho, Hrole.
      destruct (String.eqb_spec (userId o) (uid user)) as [E|E];
        [contradiction | reflexivity]. }
    split; [|split; [|split]].
    + intros Hnone. rewrite (up_world w Hnone).
      rewrite (updateDeliveryStatus_up env id requested tracking estimated (store w) o Ho).
      cbn [fst snd store asyncHandler fmap option_fmap option_map status orders].
      split; [reflexivity|].
      rewrite list_lookup_insert_eq by (eapply lookup_lt_Some; exact Ho). reflexivity.
    + unfold getOrderById. rewrite (bind_ok _ _ _ _ _ Hhidden). reflexivity.
    + intros reason. unfold cancelOrder. rewrite (bind_ok _ _ _ _ _ Hhidden). reflexivity.
    + intros q. unfold whereUserId. rewrite Hrole. reflexivity.
Qed.

Lemma delivery_route_admin_is_no_order_ADMIN_witness :
  let w := mkWorld three_orders None in
  patchDeliveryStatus env0 luis_admin 0 CANCELLED None None w
  = (Replied adminRequired, w) /\
  (deliveryStatus <$>
     orders (store (snd (patchDeliveryStatus env0 (mkUser "luis" "admin") 0 CANCELLED
                           None None w))) !! 0%nat) = Some CANCELLED /\
  fst (getOrderById (mkUser "luis" "admin") 0 w) = Replied orderNotFound.
Proof.
  cbv zeta.
  assert (Ho : orders (store (mkWorld three_orders None)) !! 0%nat
               = Some (order_of "ana" PENDING [])) by reflexivity.
  split.
  - apply (delivery_route_admin_is_no_order_ADMIN env0 luis_admin 0 CANCELLED None None
             (mkWorld three_orders None) _ ltac:(discriminate) Ho ltac:(discriminate)).
    discriminate.
  - destruct (delivery_route_admin_is_no_order_ADMIN env0 (mkUser "luis" "admin") 0
                CANCELLED None None (mkWorld three_orders None) _
                ltac:(discriminate) Ho ltac:(discriminate)) as [_ H].
    destruct (H eq_refl) as (_ & Hdone & Hget & _).
    split; [exact (proj2 (Hdone eq_refl)) | exact Hget].
Defined.

(** * The order numbers of one day *)

Lemma draws_all r : (r < 10000)%N -> r ∈ draws.
Proof.
  intros Hr. unfold draws. apply list_elem_of_fmap. exists (N.to_nat r).
  split; [now rewrite N2Nat.id | apply elem_of_seq; lia].
Qed.

Lemma draws_forallb (P : N -> bool) r :
  forallb P draws = true -> (r < 10000)%N -> P r = true.
Proof.
  intros H Hr. rewrite forallb_forall in H. apply H.
  apply list_elem_of_In. now apply draws_all.
Qed.

Lemma length_append (a b : string) :
  String.length (String.append a b) = (String.length a + String.length b)%nat.
Proof. induction a as [|c a IH]; [reflexivity | simpl; now f_equal]. Qed.

Lemma append_cancel (a b c : string) : String.append a b = String.append a c -> b = c.
Proof. induction a as [|x a IH]; cbn; [auto | intros [= H]; auto]. Qed.

(** The four-character suffix of a draw reads back as the draw. *)
Lemma padded_draw_reads r :
  (r < 10000)%N ->
  readNumeral (Js.padStart 4 "0" (Js.toString r)) = Some r /\
  String.length (Js.padStart 4 "0" (Js.toString r)) = 4%nat.
Proof.
  intros Hr.
  pose proof (draws_forallb
    (fun r => match readNumeral (Js.padStart 4 "0" (Js.toString r)) with
              | Some r' => N.eqb r' r
              | None => false
              end
              && Nat.eqb (String.length (Js.padStart 4 "0" (Js.toString r))) 4) r
    ltac:(vm_compute; reflexivity) Hr) as H.
  cbv beta in H. apply andb_prop in H as [H1 H2].
  split; [|now apply Nat.eqb_eq].
  destruct (readNumeral _) as [r'|]; [|discriminate].
  apply N.eqb_eq in H1. now subst.
Qed.

Lemma dateStr_length d :
  (1000 <= Js.getFullYear d < 10000)%N ->
  (Js.getMonth d < 12)%N ->
  (1 <= Js.getDate d <= 31)%N ->
  String.length (dateStr d) = 6%nat.
Proof.
  intros Hy Hm Hd. unfold dateStr. rewrite !length_append.
  pose proof (draws_forallb
    (fun y => N.ltb y 1000
              || Nat.eqb (String.length (Js.slice_last 2 (Js.toString y))) 2)
    (Js.getFullYear d) ltac:(vm_compute; reflexivity) ltac:(lia)) as H1.
  pose proof (draws_forallb
    (fun m => N.leb 12 m
              || Nat.eqb (String.length (Js.padStart 2 "0" (Js.toString (m + 1)))) 2)
    (Js.getMonth d) ltac:(vm_compute; reflexivity) ltac:(lia)) as H2.
  pose proof (draws_forallb
    (fun n => N.ltb 31 n
              || Nat.eqb (String.length (Js.padStart 2 "0" (Js.toString n))) 2)
    (Js.getDate d) ltac:(vm_compute; reflexivity) ltac:(lia)) as H3.
  cbv beta in H1, H2, H3.
  apply orb_prop in H1 as [H1|H1]; [apply N.ltb_lt in H1; lia|].
  apply orb_prop in H2 as [H2|H2]; [apply N.leb_le in H2; lia|].
  apply orb_prop in H3 as [H3|H3]; [apply N.ltb_lt in H3; lia|].
  apply Nat.eqb_eq in H1, H2, H3. now rewrite H1, H2, H3.
Qed.

Lemma append_split (a a' b b' : string) :
  String.length a = String.length a' ->
  String.append a b = String.append a' b' -> a = a' /\ b = b'.
Proof.
  revert a'. induction a as [|x a IH]; intros [|x' a'] Hlen H; try discriminate.
  - split; [reflexivity | exact H].
  - cbn in H. injection H as -> H. injection Hlen as Hlen.
    destruct (IH a' Hlen H) as [-> ->]. split; reflexivity.
Qed.

(** X17. The shape of an order number. For readings of the clock with a
    four-digit year, a month from 0 to 11 and a day from 1 to 31, and
    draws below 10000 (the values of [Math.floor(Math.random() * 10000)]):
    the number has 13 characters and starts with "CHE", and two numbers
    of one request are equal exactly when their dates (two digits of the
    year, month, day) and their draws are, so that a date has 10000 order
    numbers, one for each draw. *)
Theorem orderNumberOf_one_per_draw env k k' :
  calendar (today env k) ->
  calendar (today env k') ->
  (random env k < 10000)%N ->
  (random env k' < 10000)%N ->
  String.length (orderNumberOf env k) = 13%nat /\
  String.prefix "CHE" (orderNumberOf env k) = true /\
  (orderNumberOf env k = orderNumberOf env k' <->
   dateStr (today env k) = dateStr (today env k') /\ random env k = random env k') /\
  (today env k = today env k' ->
   (orderNumberOf env k = orderNumberOf env k' <-> random env k = random env k')).
Proof.
  intros (Hy & Hm & Hd) (Hy' & Hm' & Hd') Hk Hk'. unfold orderNumberOf.
  destruct (padded_draw_reads _ Hk) as [Hread Hlen].
  destruct (padded_draw_reads _ Hk') as [Hread' _].
  pose proof (dateStr_length _ Hy Hm Hd) as Hdate.
  pose proof (dateStr_length _ Hy' Hm' Hd') as Hdate'.
  assert (Hiff : String.append "CHE" (String.append (dateStr (today env k))
                   (Js.padStart 4 "0" (Js.toString (random env k))))
                 = String.append "CHE" (String.append (dateStr (today env k'))
                     (Js.padStart 4 "0" (Js.toString (random env k'))))
                 <-> dateStr (today env k) = dateStr (today env k') /\
                     random env k = random env k').
  { split; [|now intros [-> ->]].
    intros H. apply append_cancel in H.
    apply append_split in H as [Hd1 Hd2]; [|congruence].
    split; [exact Hd1|]. rewrite Hd2 in Hread. rewrite Hread in Hread'.
    now injection Hread'. }
  split; [|split; [|split]].
  - rewrite !length_append, Hdate, Hlen. reflexivity.
  - change (String.append "CHE" ?x) with (String "C" (String "H" (String "E" x))).
    cbn [String.prefix]. repeat (destruct (ascii_dec _ _); [|congruence]).
    clear. now destruct (String.append _ _).
  - exact Hiff.
  - intros Hsame. rewrite Hiff, Hsame. tauto.
Qed.

Lemma orderNumberOf_one_per_draw_witness :
  String.length (orderNumberOf env0 0) = 13%nat /\
  orderNumberOf env0 0 = orderNumberOf env0 1.
Proof.
  destruct (orderNumberOf_one_per_draw env0 0 1) as (Hlen & _ & _ & Heq);
    [unfold calendar; cbn; lia | unfold calendar; cbn; lia | cbn; lia | cbn; lia |].
  split; [exact Hlen | apply Heq; reflexivity].
Defined.

(** X18. A date holds no more orders than it has order numbers. When
    the orders of the store carry the order number of every draw below
    10000 for every date that the clock reads while [generateOrderNumber]
    draws (one date, unless the day changes during the request),
    [createOrder] creates no order, whatever the request, the draws and
    the number of attempts allowed, and leaves the store as it is; on a
    database that answers, a request whose items all pass validation is
    still drawing numbers after any number of attempts. *)
Theorem createOrder_day_capacity env s fuel user body budget :
  (forall k, (random env k < 10000)%N) ->
  (forall k r, (r < 10000)%N -> numberOn (today env k) r ∈ orderNumbers s) ->
  let out := createOrder env fuel user body (mkWorld s budget) in
  (forall x, fst out <> Ok x) /\
  store (snd out) = s /\
  (budget = None -> Forall (passes s) (body_items body) -> fst out = Looping).
Proof.
  intros Hdraw Hfull. cbv zeta.
  assert (Htaken : forall j, orderNumberOf env j ∈ orderNumbers s).
  { intros j. apply (Hfull j (random env j)), Hdraw. }
  assert (Hnone : forall o, ~ placed env user body s o).
  { intros o Hpl. destruct (placed_number _ _ _ _ _ Hpl) as [j Hj].
    apply (placed_fresh _ _ _ _ _ Hpl). rewrite Hj. apply Htaken. }
  pose proof (createOrder_post env fuel user body (mkWorld s budget)) as H.
  unfold post in H. cbv zeta in H. cbn [store] in H.
  destruct (createOrder env fuel user body (mkWorld s budget)) as [r w'].
  cbn [fst snd] in *. destruct H as [Hup H].
  destruct r as [x|x|e|].
  - destruct H as (o & _ & _ & _ & Hpl & _). destruct (Hnone o Hpl).
  - destruct H as (_ & Hx & Hs). split; [discriminate|]. split; [exact Hs|].
    intros -> Hpass.
    destruct (validateItems_passes s (body_items body) [] (0%float, []) Hpass)
      as [acc' Hv].
    rewrite app_nil_r in Hv. rewrite Hv in Hx. discriminate.
  - destruct H as [[_ Hout] H]. split; [discriminate|]. split.
    + destruct H as [Hs | (o & Hpl & _)]; [exact Hs | destruct (Hnone o Hpl)].
    + intros ->. exfalso. now apply Hout.
  - destruct H as [Hs _]. split; [discriminate|]. split; [exact Hs | reflexivity].
Qed.

Lemma createOrder_day_capacity_witness :
  fst (createOrder env0 3 ana (mkBody [] None None)
         (mkWorld (full_day (now env0)) None)) = Looping.
Proof.
  refine (proj2 (proj2 (createOrder_day_capacity env0 (full_day (now env0)) 3 ana
                          (mkBody [] None None) None _ _)) eq_refl _).
  - intros k. cbn. lia.
  - intros k r Hr. unfold orderNumbers, full_day. cbn [orders].
    rewrite <- list_fmap_compose. apply list_elem_of_fmap. exists r.
    split; [reflexivity | now apply draws_all].
  - constructor.
Defined.

(** * cancelOrder when the database stops answering *)

(** The stock loop of [cancelOrder], when the database answers as many
    calls as there are items in [done] and no more. *)
Lemma restoreStock_interrupted item rest : forall done s,
  Forall (fun i => known s (productId i)) done ->
  exists s',
    restoreStock (done ++ item :: rest) (mkWorld s (Some (length done)))
    = (Thrown Unavailable, mkWorld s' (Some O)) /\
    discountCodes s' = discountCodes s /\
    orders s' = orders s /\
    forall p, stockOf s' p = (fun z => z + reserved p done) <$> stockOf s p.
Proof.
  unfold restoreStock, reserved.
  induction done as [|d done IH]; intros s Hknown; cbn [app length forEach].
  - exists s. split; [reflexivity|]. split; [reflexivity|]. split; [reflexivity|].
    intros p. cbn [moved]. destruct (stockOf s p); cbn; [f_equal; lia | reflexivity].
  - apply Forall_cons in Hknown as [[q Hq] Hknown].
    unfold bind at 1. unfold prisma.product_update_stock at 1. unfold call.
    cbn [outage store fmap option_fmap option_map Nat.pred]. rewrite Hq.
    set (s1 := mkStore (<[productId d := restock (quantity d) q]> (products s))
                 (discountCodes s) (orders s)).
    assert (Hs1 : forall p, stockOf s1 p
                  = (fun z => z + (if decide (productId d = p) then quantity d else 0))
                    <$> stockOf s p).
    { intros p. now apply stockOf_restock. }
    destruct (IH s1) as (s' & Hrun & Hc & Ho & Hst).
    { eapply Forall_impl; [exact Hknown|]. intros i. cbv beta.
      apply (known_moved s s1 _ Hs1). }
    exists s'. split; [exact Hrun|]. split; [exact Hc|]. split; [exact Ho|].
    intros p. rewrite Hst, Hs1. cbn [moved].
    destruct (stockOf s p); cbn; [f_equal; lia | reflexivity].
Qed.

(** X19. [cancelOrder] is not undone when the database stops answering
    in the middle of its stock loop. For a caller who may cancel the
    order, an order that is neither [DELIVERED] nor [CANCELLED] and
    products that exist: when the database answers the lookup, the order
    update and the stock updates of the items [done], and no call after
    them, the request ends in the error 500; the order is stored as
    [CANCELLED]; the stock has gone up by what the items [done] hold and
    by nothing for the items after them; and once the database answers
    again, cancelling the same order is refused with 400 and writes
    nothing, so that [cancelOrder] never puts the rest back. *)
Theorem cancelOrder_interrupted user id reason reason' s o done item rest :
  orders s !! id = Some o ->
  role user = "ADMIN" \/ userId o = uid user ->
  deliveryStatus o <> DELIVERED ->
  deliveryStatus o <> CANCELLED ->
  items o = done ++ item :: rest ->
  Forall (fun i => known s (productId i)) done ->
  let out := cancelOrder user id reason (mkWorld s (Some (2 + length done)%nat)) in
  let s' := store (snd out) in
  (status <$> asyncHandler (fst out)) = Some 500 /\
  (deliveryStatus <$> orders s' !! id) = Some CANCELLED /\
  (forall p, stockOf s' p = (fun z => z + reserved p done) <$> stockOf s p) /\
  cancelOrder user id reason' (mkWorld s' None) = (Replied cannotCancel, mkWorld s' None).
Proof.
  intros Ho Hmay Hd Hc Hitems Hknown. cbv zeta.
  set (s1 := mkStore (products s) (discountCodes s)
               (<[id := cancelUpdate o reason o]> (orders s))).
  destruct (restoreStock_interrupted item rest done s1 Hknown) as (s' & Hloop & _ & Ho' & Hst).
  assert (Hrun : cancelOrder user id reason (mkWorld s (Some (2 + length done)%nat))
                 = (Thrown Unavailable, mkWorld s' (Some O))).
  { unfold cancelOrder.
    rewrite (bind_ok _ _ _ (Some o) (mkWorld s (Some (1 + length done)%nat))).
    - rewrite !bool_decide_eq_false_2 by assumption. cbn [orb].
      rewrite (bind_ok _ _ _ (cancelUpdate o reason o) (mkWorld s1 (Some (length done)))).
      + rewrite Hitems. unfold bind. rewrite Hloop. reflexivity.
      + unfold prisma.order_update, call. cbn [outage store]. rewrite Ho. reflexivity.
    - rewrite owner_lookup by discriminate. cbn [store outage]. rewrite Ho.
      destruct Hmay as [-> | ->]; [reflexivity|].
      rewrite String.eqb_refl, orb_true_r. reflexivity. }
  rewrite Hrun. cbn [fst snd store asyncHandler globalErrorHandler].
  assert (Hstored : orders s' !! id = Some (cancelUpdate o reason o)).
  { rewrite Ho'. cbn [s1 orders].
    apply list_lookup_insert_eq. eapply lookup_lt_Some. exact Ho. }
  split; [reflexivity|]. split; [now rewrite Hstored|]. split; [exact Hst|].
  apply (cancelOrder_refuses user id reason' s' _ Hstored); [exact Hmay | now right].
Qed.

Lemma cancelOrder_interrupted_witness :
  let out := cancelOrder ana 0 None (mkWorld two_lines (Some 3%nat)) in
  (status <$> asyncHandler (fst out)) = Some 500 /\
  stockOf (store (snd out)) "p1" = Some 7 /\
  stockOf (store (snd out)) "p2" = Some 5 /\
  fst (cancelOrder ana 0 None (mkWorld (store (snd out)) None)) = Replied cannotCancel.
Proof.
  cbv zeta.
  assert (Ho : orders two_lines !! 0%nat
               = Some (order_of "ana" PENDING
                         [mkOrderItem "p1" 2 35000%float 70000%float;
                          mkOrderItem "p2" 1 12000%float 12000%float])) by reflexivity.
  assert (Hp : known two_lines "p1") by (exists cafe; reflexivity).
  destruct (cancelOrder_interrupted ana 0 None None two_lines _
              [mkOrderItem "p1" 2 35000%float 70000%float]
              (mkOrderItem "p2" 1 12000%float 12000%float) [] Ho)
    as (H500 & _ & Hst & Hagain);
    [right; reflexivity | discriminate | discriminate | reflexivity
    | constructor; [exact Hp | constructor] |].
  split; [exact H500|].
  split; [etransitivity; [exact (Hst "p1") | reflexivity]|].
  split; [etransitivity; [exact (Hst "p2") | reflexivity]|].
  exact (f_equal fst Hagain).
Defined.
